(** * ConstrainPrompt: the checker harness, the stage-1 filters, the tree
      printer and the oracle wrappers, embedded from the Python sources.

    - [Py]       the fragment of Python values the sources handle, truthiness,
                 [json.dumps] with the default separators and
                 [ensure_ascii=False], and the [Exec] monad (process state,
                 standard output, exceptions, non-termination);
    - [Harness]  [run_generated_checker] of run_checker.py;
    - [Stage1]   the two filters of stage1_extraction.py;
    - [Stage2]   [pretty_print_tree] of stage2_tree_generation.py;
    - [Oracle]   the three oracle wrappers ([classify_prompt_constraints],
                 [generate_evaluation_tree], [generate_checker_code]).

    Text is kept as UTF-8 byte strings. *)

From Stdlib Require Import ZArith DecimalString.
From stdpp Require Import base option list strings gmap.

Open Scope string_scope.
Set Warnings "-register-all".

(* ===================================================================== *)
(** ** Python values, exceptions and effects                              *)
(* ===================================================================== *)

Module Py.

(** The values that flow through the sources. [VObj] stands for any object
    that [json.dumps] refuses (a set, bytes, an exception instance, ...): it
    carries its type name and its truth value. Floats and dicts with
    non-string keys do not occur in the modelled fragment. Values are plain
    data: an instance of a class of the validator's own, whose [__len__],
    [__iter__], [__bool__] or [__str__] run code of the validator, is
    outside the fragment. *)
Inductive PyVal : Type :=
| VNone
| VBool (b : bool)
| VInt (n : Z)
| VStr (s : string)
| VTuple (items : list PyVal)
| VList (items : list PyVal)
| VObj (type_name : string) (truth : bool).

(** An instance of a subclass of [Exception]; [str(e)] is [exc_msg]. *)
Record PyExc : Type := Exc { exc_class : string; exc_msg : string }.

(** The exceptions that derive from [BaseException] but not from
    [Exception]; [except Exception] does not match them. *)
Inductive PySignal : Type :=
| SystemExit (code : Z)
| KeyboardInterrupt
| GeneratorExit.

(** How a piece of Python code ends. *)
Inductive Outcome (A : Type) : Type :=
| Normal (a : A)
| Raise (e : PyExc)
| Signal (s : PySignal)
| Diverge.
Arguments Normal {A} a.
Arguments Raise {A} e.
Arguments Signal {A} s.
Arguments Diverge {A}.

(** [bool(v)]. *)
Definition truthy (v : PyVal) : bool :=
  match v with
  | VNone => false
  | VBool b => b
  | VInt n => negb (n =? 0)%Z
  | VStr s => negb (String.eqb s "")
  | VTuple items | VList items => match items with [] => false | _ => true end
  | VObj _ t => t
  end.

(** [type(v).__name__]. *)
Definition type_name_of (v : PyVal) : string :=
  match v with
  | VNone => "NoneType"
  | VBool _ => "bool"
  | VInt _ => "int"
  | VStr _ => "str"
  | VTuple _ => "tuple"
  | VList _ => "list"
  | VObj t _ => t
  end.

(** [isinstance(v, tuple)]. *)
Definition is_tuple (v : PyVal) : bool :=
  match v with VTuple _ => true | _ => false end.

(** [len(v)] for the values the harness applies it to (tuples). *)
Definition tuple_len (v : PyVal) : nat :=
  match v with VTuple items => length items | _ => 0 end.

(** The values of the fields of a record read from JSON, as the tool
    schemas type them: null, a boolean, an integer or text. *)
Inductive Scalar : Type :=
| SNull
| SBool (b : bool)
| SInt (n : Z)
| SStr (s : string).

Definition int_repr (n : Z) : string := NilZero.string_of_int (Z.to_int n).

(** [str(v)], as an f-string formats a field. *)
Definition str_of (v : Scalar) : string :=
  match v with
  | SNull => "None"
  | SBool true => "True"
  | SBool false => "False"
  | SInt n => int_repr n
  | SStr s => s
  end.

(** [bool(v)] of a field. *)
Definition scalar_truthy (v : Scalar) : bool :=
  match v with
  | SNull => false
  | SBool b => b
  | SInt n => negb (n =? 0)%Z
  | SStr s => negb (String.eqb s "")
  end.

(** [v == s] for a string literal [s]. *)
Definition eq_str (v : Scalar) (s : string) : bool :=
  match v with SStr t => String.eqb t s | _ => false end.

(** Code that returns a value or raises an [Exception], and does nothing
    else. *)
Definition bind_result {A B} (m : PyExc + A) (k : A → PyExc + B) : PyExc + B :=
  match m with inl e => inl e | inr a => k a end.

Notation "'do!' x ':=' m 'in' k" := (bind_result m (fun x => k))
  (at level 10, x name, m at level 100, k at level 200).

(** [d.get(k, default)]. *)
Definition dict_get (d : gmap string Scalar) (k : string) (dflt : Scalar) : Scalar :=
  default dflt (d !! k).

(** [d[k]]: the value, or [KeyError(k)], whose text is the key in quotes. *)
Definition subscript (d : gmap string Scalar) (k : string) : PyExc + Scalar :=
  match d !! k with
  | Some v => inr v
  | None => inl (Exc "KeyError" ("'" ++ k ++ "'"))
  end.

(** *** json.dumps *)

Definition dquote : string := String (Ascii.ascii_of_nat 34) "".

Definition hex_digit (n : nat) : string :=
  String.substring n 1 "0123456789abcdef".

(** [ESCAPE_DCT] of json.encoder: the short escapes, and [\u00xx] for the
    other characters below 0x20. Everything else is copied
    ([ensure_ascii=False]). *)
Definition escape_char (c : Ascii.ascii) : string :=
  let n := Ascii.nat_of_ascii c in
  if Nat.eqb n 34 then "\" ++ dquote
  else if Nat.eqb n 92 then "\\"
  else if Nat.eqb n 8 then "\b"
  else if Nat.eqb n 12 then "\f"
  else if Nat.eqb n 10 then "\n"
  else if Nat.eqb n 13 then "\r"
  else if Nat.eqb n 9 then "\t"
  else if Nat.ltb n 32 then "\u00" ++ hex_digit (n / 16) ++ hex_digit (n mod 16)
  else String c "".

Fixpoint escape_chars (s : string) : string :=
  match s with
  | EmptyString => ""
  | String c r => escape_char c ++ escape_chars r
  end.

(** [py_encode_basestring]. *)
Definition encode_basestring (s : string) : string :=
  dquote ++ escape_chars s ++ dquote.

Fixpoint join (sep : string) (parts : list string) : string :=
  match parts with
  | [] => ""
  | [p] => p
  | p :: rest => p ++ sep ++ join sep rest
  end.

Definition not_serializable (t : string) : PyExc :=
  Exc "TypeError" ("Object of type " ++ t ++ " is not JSON serializable").

(** *** Reading a JSON string literal back

    The inverse of [encode_basestring], against which the printed records
    are checked. *)

Definition char (n : nat) : Ascii.ascii := Ascii.ascii_of_nat n.

(** The value of a lower-case hexadecimal digit. *)
Definition hex_value (c : Ascii.ascii) : option nat :=
  (fix find (digits : string) (n : nat) : option nat :=
     match digits with
     | EmptyString => None
     | String d r => if Ascii.eqb c d then Some n else find r (S n)
     end) "0123456789abcdef" 0.

(** The character a two-character escape stands for. *)
Definition short_escape (x : Ascii.ascii) : option Ascii.ascii :=
  if Ascii.eqb x (char 34) then Some (char 34)
  else if Ascii.eqb x (char 92) then Some (char 92)
  else if Ascii.eqb x (char 98) then Some (char 8)
  else if Ascii.eqb x (char 102) then Some (char 12)
  else if Ascii.eqb x (char 110) then Some (char 10)
  else if Ascii.eqb x (char 114) then Some (char 13)
  else if Ascii.eqb x (char 116) then Some (char 9)
  else None.

Definition push (c : Ascii.ascii) (r : option (string * string)) : option (string * string) :=
  match r with Some (s, rest) => Some (String c s, rest) | None => None end.

(** Reads the body of a JSON string literal up to its closing quote: the
    text it stands for, and what follows the quote. *)
Fixpoint read_body (s : string) : option (string * string) :=
  match s with
  | EmptyString => None
  | String c r =>
      if Ascii.eqb c (char 34) then Some ("", r)
      else if Ascii.eqb c (char 92) then
        match r with
        | String x r1 =>
            if Ascii.eqb x (char 117) then
              match r1 with
              | String _ (String _ (String h (String l r2))) =>
                  match hex_value h, hex_value l with
                  | Some a, Some b => push (Ascii.ascii_of_nat (16 * a + b)) (read_body r2)
                  | _, _ => None
                  end
              | _ => None
              end
            else
              match short_escape x with
              | Some ch => push ch (read_body r1)
              | None => None
              end
        | EmptyString => None
        end
      else push c (read_body r)
  end.

(** Reads a JSON string literal, opening quote included. *)
Definition read_literal (s : string) : option (string * string) :=
  match s with
  | String c r => if Ascii.eqb c (char 34) then read_body r else None
  | EmptyString => None
  end.

(** A list comprehension over code that may raise: the first exception
    ends it. *)
Definition map_result {A B} (f : A → PyExc + B) : list A → PyExc + list B :=
  fix go (l : list A) : PyExc + list B :=
    match l with
    | [] => inr []
    | x :: r => do! y := f x in do! ys := go r in inr (y :: ys)
    end.

(** [json.dumps(v, ensure_ascii=False)]: the text, or the [TypeError] of the
    first object that cannot be serialised (left to right). *)
Fixpoint json_dumps (v : PyVal) : PyExc + string :=
  match v with
  | VNone => inr "null"
  | VBool true => inr "true"
  | VBool false => inr "false"
  | VInt n => inr (int_repr n)
  | VStr s => inr (encode_basestring s)
  | VTuple items | VList items =>
      do! parts := map_result json_dumps items in
      inr ("[" ++ join ", " parts ++ "]")
  | VObj t _ => inl (not_serializable t)
  end.

(** A dict with string keys, in insertion order. *)
Definition PyDict : Type := list (string * PyVal).

Definition dumps_field (kv : string * PyVal) : PyExc + string :=
  do! sv := json_dumps kv.2 in inr (encode_basestring kv.1 ++ ": " ++ sv).

(** [json.dumps(d, ensure_ascii=False)] for a dict: the items in the dict's
    order, separated by [", "], key and value by [": "]. *)
Definition json_dumps_dict (d : PyDict) : PyExc + string :=
  do! parts := map_result dumps_field d in
  inr ("{" ++ join ", " parts ++ "}").

(** *** Effects

    The world is the state of the interpreter process that outlives a call:
    what code has stored in the [builtins] module, in [sys.modules], and so
    on, as a finite map from names to values. A computation reads and
    writes the world, appends lines to standard output, and ends in an
    [Outcome]. *)
Definition Exec (A : Type) : Type :=
  gmap string PyVal → Outcome A * gmap string PyVal * list string.

Definition exec_ret {A} (a : A) : Exec A := fun w => (Normal a, w, []).

Definition exec_bind {A B} (m : Exec A) (k : A → Exec B) : Exec B :=
  fun w =>
    match m w with
    | (Normal a, w1, out1) =>
        match k a w1 with (r, w2, out2) => (r, w2, (out1 ++ out2)%list) end
    | (Raise e, w1, out1) => (Raise e, w1, out1)
    | (Signal s, w1, out1) => (Signal s, w1, out1)
    | (Diverge, w1, out1) => (Diverge, w1, out1)
    end.

Notation "'let!' x ':=' m 'in' k" := (exec_bind m (fun x => k))
  (at level 10, x name, m at level 100, k at level 200).
Notation "m ';;!' k" := (exec_bind m (fun _ => k))
  (at level 100, k at level 200, right associativity).

(** [raise e]. *)
Definition raise {A} (e : PyExc) : Exec A := fun w => (Raise e, w, []).

(** [print(line)]. *)
Definition print (line : string) : Exec unit := fun w => (Normal tt, w, [line]).

(** A library call that returns or raises, without touching the world. *)
Definition lift_result {A} (r : PyExc + A) : Exec A :=
  match r with inl e => raise e | inr a => exec_ret a end.

(** [try: body / except Exception as e: handler e]. Only [Raise] is
    handled: a [Signal] and non-termination pass through. *)
Definition try_except {A} (body : Exec A) (handler : PyExc → Exec A) : Exec A :=
  fun w =>
    match body w with
    | (Raise e, w1, out1) =>
        match handler e w1 with (r, w2, out2) => (r, w2, (out1 ++ out2)%list) end
    | other => other
    end.

End Py.

(* ===================================================================== *)
(** ** run_checker.py                                                     *)
(* ===================================================================== *)

Module Harness.
Import Py.

(** What a name of a module namespace is bound to: a plain value, or a
    function, given by what a call does to its positional arguments. *)
Inductive Binding : Type :=
| BVal (v : PyVal)
| BFun (f : list PyVal → Exec PyVal).

(** The validator source [code_str] is represented by what
    [exec(code_str, d)] does: from the namespace [d] it is run in, a
    computation that ends with the namespace as the code left it. *)
Definition Source : Type := gmap string Binding → Exec (gmap string Binding).

(** [types.ModuleType(name).__dict__] of a module just created. *)
Definition module_dict (name : string) : gmap string Binding :=
  <["__name__" := BVal (VStr name)]>
    (<["__doc__" := BVal VNone]>
      (<["__package__" := BVal VNone]>
        (<["__loader__" := BVal VNone]>
          (<["__spec__" := BVal VNone]> ∅)))).

(** [f(args)]. *)
Definition call (b : Binding) (args : list PyVal) : Exec PyVal :=
  match b with
  | BFun f => f args
  | BVal v =>
      raise (Exc "TypeError" ("'" ++ type_name_of v ++ "' object is not callable"))
  end.

Definition missing_entry_point : PyExc :=
  Exc "ValueError" "❌ Generated code does not contain `is_valid_output` function.".

Definition malformed_return : PyExc :=
  Exc "ValueError"
      "❌ `is_valid_output` must return a tuple: (bool, Optional[str], Optional[str])".

(** The dict [output] of lines 20-24 and 28-32, in the order its keys are
    written. *)
Definition verdict_record (satisfied : bool) (reason violation : PyVal) : PyDict :=
  [("satisfied", VBool satisfied); ("reason", reason); ("violation", violation)].

(** [print(json.dumps(output, ensure_ascii=False))]. *)
Definition emit (output : PyDict) : Exec unit :=
  let! line := lift_result (json_dumps_dict output) in print line.

(** Lines 14-34: the shape check, the verdict record and the value returned. *)
Definition report (result : PyVal) : Exec PyVal :=
  if negb (is_tuple result) || negb (tuple_len result =? 3)%nat
  then raise malformed_return
  else
    match result with
    | VTuple [passed; reason; violation] =>
        (if truthy passed
         then emit (verdict_record true VNone VNone)
         else emit (verdict_record false reason violation)) ;;!
        exec_ret passed
    | _ => raise malformed_return   (* not reached: line 17 unpacks a 3-tuple *)
    end.

(** The body of the [try] block, lines 9-34. *)
Definition checker_body (code : Source) (input_text output_text : string)
  : Exec PyVal :=
  let! ns := code (module_dict "checker_module") in
  match ns !! "is_valid_output" with
  | None => raise missing_entry_point
  | Some entry =>
      let! result := call entry [VStr output_text; VStr input_text] in
      report result
  end.

(** The line of the handler: [f"❌ Error during execution: {e}"]. *)
Definition error_line (e : PyExc) : string :=
  "❌ Error during execution: " ++ exc_msg e.

(** Lines 36-38. *)
Definition on_exception (e : PyExc) : Exec PyVal :=
  print (error_line e) ;;! exec_ret (VBool false).

Definition run_generated_checker (code : Source) (input_text output_text : string)
  : Exec PyVal :=
  try_except (checker_body code input_text output_text) on_exception.

(** *** What the validator did, as the harness meets it *)

(** The validator could be loaded and its entry point called, and the call
    ended in [r]; [out] is what the validator itself printed. *)
Definition entry_ends (code : Source) (input_text output_text : string)
    (w : gmap string PyVal) (r : Outcome PyVal) (w' : gmap string PyVal)
    (out : list string) : Prop :=
  ∃ ns w1 out1 entry out2,
    code (module_dict "checker_module") w = (Normal ns, w1, out1) ∧
    ns !! "is_valid_output" = Some entry ∧
    call entry [VStr output_text; VStr input_text] w1 = (r, w', out2) ∧
    out = (out1 ++ out2)%list.

(** The entry point returned [result]. *)
Definition entry_returns code input_text output_text w result w' out : Prop :=
  entry_ends code input_text output_text w (Normal result) w' out.

(** Loading succeeded and left no binding for [is_valid_output]. *)
Definition loads_without_entry (code : Source) (w w' : gmap string PyVal)
    (out : list string) : Prop :=
  ∃ ns, code (module_dict "checker_module") w = (Normal ns, w', out) ∧
        ns !! "is_valid_output" = None.



(** Loading or the entry point does not terminate. *)
Inductive validator_diverges (code : Source) (input_text output_text : string)
    (w w' : gmap string PyVal) (out : list string) : Prop :=
| diverges_in_load :
    code (module_dict "checker_module") w = (Diverge, w', out) →
    validator_diverges code input_text output_text w w' out
| diverges_in_call :
    entry_ends code input_text output_text w Diverge w' out →
    validator_diverges code input_text output_text w w' out.

(** *** The contract's types, and the text of a verdict record *)

(** [Optional[str]]. *)
Definition opt_text (t : option string) : PyVal :=
  match t with None => VNone | Some s => VStr s end.

Definition json_bool (b : bool) : string := if b then "true" else "false".

Definition json_opt_text (t : option string) : string :=
  match t with None => "null" | Some s => encode_basestring s end.

(** A JSON object with the three fields in the order satisfied, reason,
    violation, each field given by its JSON text. *)
Definition verdict_text (satisfied reason violation : string) : string :=
  "{" ++ encode_basestring "satisfied" ++ ": " ++ satisfied ++ ", " ++
  encode_basestring "reason" ++ ": " ++ reason ++ ", " ++
  encode_basestring "violation" ++ ": " ++ violation ++ "}".

(** A printed line is a verdict record when it is the JSON text of a dict
    whose keys are satisfied, reason, violation, in this order. *)
Definition is_verdict_record (line : string) : Prop :=
  ∃ d : PyDict, d.*1 = ["satisfied"; "reason"; "violation"] ∧
                json_dumps_dict d = inr line.

(** The spec's shape: an ordered sequence of three elements. *)
Definition ordered_3_sequence (v : PyVal) : Prop :=
  match v with
  | VTuple items | VList items => length items = 3
  | _ => False
  end.

(** The shape the code asks for. *)
Definition tuple_of_3 (v : PyVal) : Prop :=
  is_tuple v = true ∧ tuple_len v = 3.




(** *** Validators used as concrete inputs

    Each is given with the Python source it stands for. *)

Definition def_entry (f : list PyVal → Exec PyVal) : Source := fun d =>
  exec_ret (<["is_valid_output" := BFun f]> d).

(** [def is_valid_output(output, input_text): return (True, None, None)] *)
Definition always_true : Source :=
  def_entry (fun _ => exec_ret (VTuple [VBool true; VNone; VNone])).

(** [def is_valid_output(output, input_text):
       return (False, "too short", "output must exceed 10 words")] *)
Definition too_short : Source :=
  def_entry (fun _ => exec_ret (VTuple [VBool false; VStr "too short";
                                        VStr "output must exceed 10 words"])).

(** [def is_valid_output(output, input_text): return [True, None, None]] *)
Definition returns_list : Source :=
  def_entry (fun _ => exec_ret (VList [VBool true; VNone; VNone])).

(** [def is_valid_output(output, input_text): return (True, None)] *)
Definition returns_pair : Source :=
  def_entry (fun _ => exec_ret (VTuple [VBool true; VNone])).

(** [def check(output, input_text): return (True, None, None)] *)
Definition wrong_name : Source := fun d =>
  exec_ret (<["check" := BFun (fun _ => exec_ret (VTuple [VBool true; VNone; VNone]))]> d).

(** [def is_valid_output(output, input_text):
       return (output == "out" and input_text == "in", "swapped", None)] *)
Definition checks_arguments : Source :=
  def_entry (fun args =>
    match args with
    | [VStr a; VStr b] =>
        exec_ret (VTuple [VBool (String.eqb a "out" && String.eqb b "in");
                          VStr "swapped"; VNone])
    | _ => raise (Exc "TypeError" "is_valid_output() takes 2 positional arguments")
    end).


(** [raise RuntimeError("boom")], at module level. *)
Definition raises_on_load : Source := fun _ => raise (Exc "RuntimeError" "boom").


(** [def is_valid_output(output, input_text):] / [while True: pass] *)
Definition loops_forever : Source :=
  def_entry (fun _ w => (Diverge, w, [])).



End Harness.

(* ===================================================================== *)
(** ** stage1_extraction.py: the two filters                              *)
(* ===================================================================== *)

Module Stage1.
Import Py.

Definition code_verifiable_categories : gset string :=
  {[ "Output → Specific format constraint";
     "Output → Numerical constraint";
     "Output → Lexical matching constraint";
     "Output → Lexical exclusion constraint" ]}.

(** [v in code_verifiable_categories]: only text can equal a member. *)
Definition in_categories (v : Scalar) : bool :=
  match v with
  | SStr s => bool_decide (s ∈ code_verifiable_categories)
  | _ => false
  end.

(** [c.get("category") in code_verifiable_categories]. *)
Definition code_verifiable (c : gmap string Scalar) : bool :=
  in_categories (dict_get c "category" SNull).

(** The list comprehension of line 185. *)
Definition filter_code_verifiable_constraints
    (constraints : list (gmap string Scalar)) : list (gmap string Scalar) :=
  filter (λ c, code_verifiable c) constraints.

Definition is_unconditional (c : gmap string Scalar) : bool :=
  eq_str (dict_get c "application_type" SNull) "unconditional".

Definition is_conditional (c : gmap string Scalar) : bool :=
  eq_str (dict_get c "application_type" SNull) "conditional".

Section Conditionals.

(** The oracle behind [assess_single_conditional_bool]: it answers with a
    boolean (its own failures are turned into [False], lines 173-175) and
    may answer differently from one call to the next, hence the state. *)
Context {OracleState : Type}.
Variable assess_single_conditional_bool :
  Scalar → Scalar → string → string → OracleState → bool * OracleState.

(** One turn of the loop of lines 194-205. *)
Definition keep_step (prompt_text model : string)
    (acc : list (gmap string Scalar) * OracleState) (c : gmap string Scalar)
  : list (gmap string Scalar) * OracleState :=
  let '(kept, st) := acc in
  if is_unconditional c then (kept ++ [c], st)%list
  else if is_conditional c then
    let '(ok, st') :=
      assess_single_conditional_bool
        (dict_get c "constraint" (SStr "")) (dict_get c "source" (SStr ""))
        prompt_text model st in
    if ok then (kept ++ [c], st')%list else (kept, st')
  else (kept, st).

Definition filter_code_verifiable_conditionals
    (constraints : list (gmap string Scalar)) (prompt_text model : string)
    (st : OracleState) : list (gmap string Scalar) * OracleState :=
  fold_left (keep_step prompt_text model) constraints ([], st).

(** Lines 235-236 of [main]: the two filters, one after the other. *)
Definition stage1_filters (raw_constraints : list (gmap string Scalar))
    (prompt_text model : string) (st : OracleState)
  : list (gmap string Scalar) * OracleState :=
  filter_code_verifiable_conditionals
    (filter_code_verifiable_constraints raw_constraints) prompt_text model st.

End Conditionals.

(** Records used as concrete inputs. *)
Definition constraint_record (text application_type category : string)
  : gmap string Scalar :=
  <["constraint" := SStr text]>
    (<["application_type" := SStr application_type]>
      (<["category" := SStr category]>
        (<["reason" := SStr "-"]> (<["source" := SStr text]> ∅)))).

(** An oracle that finds no condition verifiable. *)
Definition never_verifiable :
  Scalar → Scalar → string → string → unit → bool * unit :=
  fun _ _ _ _ st => (false, st).

Definition stage1_sample_kept : gmap string Scalar :=
  constraint_record "at most 5 queries" "unconditional" "Output → Numerical constraint".

Definition stage1_sample : list (gmap string Scalar) :=
  [ stage1_sample_kept;
    constraint_record "be concise" "unconditional" "Output → Qualitative constraint";
    constraint_record "if asked, use JSON" "conditional"
      "Output → Specific format constraint";
    constraint_record "no emoji" "sometimes" "Output → Lexical exclusion constraint" ].

End Stage1.

(* ===================================================================== *)
(** ** stage2_tree_generation.py: the tree printer                        *)
(* ===================================================================== *)

Module Stage2.
Import Py.

(** A node is a dict: its scalar fields by key, and the list under
    ["children"] (a missing key reads as the empty list, line 126). *)
Inductive Node : Type :=
| MkNode (fields : gmap string Scalar) (children : list Node).

Definition fields_of (n : Node) : gmap string Scalar :=
  match n with MkNode f _ => f end.

Definition children_of (n : Node) : list Node :=
  match n with MkNode _ cs => cs end.

Definition branch (is_last : bool) : string :=
  if is_last then "└── " else "├── ".

Definition extend (prefix : string) (is_last : bool) : string :=
  prefix ++ (if is_last then "    " else "│   ").

(** Lines 117-123: the keys are read in the order conditional, parent_ok,
    constraint_category, scope, constraint, source; the first one missing
    raises [KeyError]. *)
Definition format_line (fields : gmap string Scalar) (prefix : string)
    (is_last : bool) : PyExc + string :=
  do! conditional := subscript fields "conditional" in
  let condition_tag := if scalar_truthy conditional then "[COND]" else "[UNCOND]" in
  do! parent_ok := subscript fields "parent_ok" in
  do! category := subscript fields "constraint_category" in
  do! scope := subscript fields "scope" in
  do! constraint := subscript fields "constraint" in
  do! source := subscript fields "source" in
  inr (prefix ++ branch is_last ++ condition_tag ++ " " ++
       "(parent_met=" ++ str_of parent_ok ++ ") | " ++
       "constraint_category: " ++ str_of category ++
       " | scope: " ++ str_of scope ++
       " | constraint: " ++ str_of constraint ++
       " | source: " ++ str_of source).

(** [pretty_print_tree]: the lines printed, and the exception that stopped
    the printing, if any. In the loop over [enumerate(children)] the test
    [idx == len(children) - 1] holds exactly at the last element. *)
Fixpoint pretty_print_tree (node : Node) (prefix : string) (is_last : bool)
  : list string * option PyExc :=
  match node with
  | MkNode fields children =>
      match format_line fields prefix is_last with
      | inl e => ([], Some e)
      | inr line =>
          let new_prefix := extend prefix is_last in
          let fix loop (cs : list Node) : list string * option PyExc :=
            match cs with
            | [] => ([], None)
            | child :: rest =>
                match pretty_print_tree child new_prefix
                        (match rest with [] => true | _ => false end) with
                | (ls, Some e) => (ls, Some e)
                | (ls, None) =>
                    match loop rest with (ls', r) => ((ls ++ ls')%list, r) end
                end
            end in
          match loop children with (ls, r) => (line :: ls, r) end
      end
  end.

(** *** The properties the printer is checked against *)

Fixpoint node_count (n : Node) : nat :=
  match n with MkNode _ cs => S (list_sum (map node_count cs)) end.

(** Depth-first, parent before children, children from left to right. *)
Fixpoint preorder (n : Node) : list Node :=
  match n with MkNode _ cs => n :: flat_map preorder cs end.

(** The six keys a printed line reads. *)
Definition printed_keys : list string :=
  ["conditional"; "parent_ok"; "constraint_category"; "scope"; "constraint"; "source"].

Definition has_printed_keys (n : Node) : Prop :=
  Forall (λ k, is_Some (fields_of n !! k)) printed_keys.

(** Every node, the leaves too, carries the six keys. *)
Definition complete (t : Node) : Prop := Forall has_printed_keys (preorder t).

Definition is_leaf (n : Node) : bool :=
  eq_str (dict_get (fields_of n) "constraint_category" SNull) "result".

(** The exchange format of the spec: a leaf omits source and scope and has
    no children; any other node has the six keys. *)
Definition exchange_node (n : Node) : Prop :=
  if is_leaf n
  then fields_of n !! "source" = None ∧ fields_of n !! "scope" = None ∧
       children_of n = [] ∧
       Forall (λ k, is_Some (fields_of n !! k))
              ["conditional"; "parent_ok"; "constraint_category"; "constraint"]
  else has_printed_keys n.

Definition exchange_format (t : Node) : Prop := Forall exchange_node (preorder t).

(** The text of a line after the indentation and the branch glyph. *)
Definition annotation (n : Node) : string :=
  let f := fields_of n in
  (if scalar_truthy (dict_get f "conditional" SNull) then "[COND]" else "[UNCOND]") ++
  " (parent_met=" ++ str_of (dict_get f "parent_ok" SNull) ++ ") | " ++
  "constraint_category: " ++ str_of (dict_get f "constraint_category" SNull) ++
  " | scope: " ++ str_of (dict_get f "scope" SNull) ++
  " | constraint: " ++ str_of (dict_get f "constraint" SNull) ++
  " | source: " ++ str_of (dict_get f "source" SNull).

(** Where each node is drawn: its indentation and whether it is drawn as a
    last child, in pre-order. A node's children are drawn under the node's
    extended prefix, the last one as last, the earlier ones not. *)
Fixpoint placement (n : Node) (prefix : string) (is_last : bool)
  : list (string * bool * Node) :=
  match n with
  | MkNode _ cs =>
      let fix place (l : list Node) : list (string * bool * Node) :=
        match l with
        | [] => []
        | c :: rest =>
            (placement c (extend prefix is_last)
               (match rest with [] => true | _ => false end) ++ place rest)%list
        end in
      (prefix, is_last, n) :: place cs
  end.

Definition draw (p : string * bool * Node) : string :=
  match p with (prefix, is_last, n) => prefix ++ branch is_last ++ annotation n end.

(** The loop of lines 128-129 and the placement of the children, on their
    own: the two inner loops above, named. *)
Definition print_children (new_prefix : string)
  : list Node → list string * option PyExc :=
  fix loop (cs : list Node) :=
    match cs with
    | [] => ([], None)
    | child :: rest =>
        match pretty_print_tree child new_prefix
                (match rest with [] => true | _ => false end) with
        | (ls, Some e) => (ls, Some e)
        | (ls, None) => match loop rest with (ls', r) => ((ls ++ ls')%list, r) end
        end
    end.

Definition place_children (new_prefix : string)
  : list Node → list (string * bool * Node) :=
  fix place (l : list Node) :=
    match l with
    | [] => []
    | c :: rest =>
        (placement c new_prefix (match rest with [] => true | _ => false end) ++
         place rest)%list
    end.

(** Trees used as concrete inputs. *)
Definition inner (conditional parent_ok : bool) (category scope constraint source : string)
    (children : list Node) : Node :=
  MkNode (<["conditional" := SBool conditional]>
           (<["parent_ok" := SBool parent_ok]>
             (<["constraint_category" := SStr category]>
               (<["scope" := SStr scope]>
                 (<["constraint" := SStr constraint]>
                   (<["source" := SStr source]> ∅))))))
         children.

(** A leaf as the tool schema and the system prompt of stage 2 ask for it:
    source and scope present, and null. *)
Definition schema_leaf (parent_ok : bool) (verdict : string) : Node :=
  MkNode (<["conditional" := SBool false]>
           (<["parent_ok" := SBool parent_ok]>
             (<["constraint_category" := SStr "result"]>
               (<["scope" := SNull]>
                 (<["constraint" := SStr verdict]>
                   (<["source" := SNull]> ∅))))))
         [].

(** A leaf in the exchange format of the spec: no source, no scope. *)
Definition bare_leaf (parent_ok : bool) (verdict : string) : Node :=
  MkNode (<["conditional" := SBool false]>
           (<["parent_ok" := SBool parent_ok]>
             (<["constraint_category" := SStr "result"]>
               (<["constraint" := SStr verdict]> ∅))))
         [].

Definition json_check (yes no : Node) : Node :=
  inner false true "Output → Specific format constraint" "entire output"
        "output must be valid JSON" "Return a JSON object." [yes; no].

Definition schema_tree : Node :=
  json_check (schema_leaf true "yes") (schema_leaf false "no").

Definition bare_tree : Node :=
  json_check (bare_leaf true "yes") (bare_leaf false "no").

End Stage2.

(* ===================================================================== *)
(** ** The oracle wrappers of stages 1, 2 and 3                           *)
(* ===================================================================== *)

Module Oracle.
Import Py.

(** Parsed JSON. *)
Inductive Json : Type :=
| JAtom (v : Scalar)
| JArr (items : list Json)
| JObj (members : gmap string Json).

Definition json_type_name (j : Json) : string :=
  match j with
  | JAtom SNull => "NoneType"
  | JAtom (SBool _) => "bool"
  | JAtom (SInt _) => "int"
  | JAtom (SStr _) => "str"
  | JArr _ => "list"
  | JObj _ => "dict"
  end.

(** [j.get(k, default)]: only a dict has [get]. *)
Definition json_get (j : Json) (k : string) (dflt : Json) : PyExc + Json :=
  match j with
  | JObj m => inr (default dflt (m !! k))
  | _ => inl (Exc "AttributeError"
                  ("'" ++ json_type_name j ++ "' object has no attribute 'get'"))
  end.

(** [j[k]] for a string [k]. *)
Definition json_subscript (j : Json) (k : string) : PyExc + Json :=
  match j with
  | JObj m =>
      match m !! k with
      | Some v => inr v
      | None => inl (Exc "KeyError" ("'" ++ k ++ "'"))
      end
  | JArr _ => inl (Exc "TypeError" "list indices must be integers or slices, not str")
  | JAtom (SStr _) => inl (Exc "TypeError" "string indices must be integers, not 'str'")
  | JAtom _ =>
      inl (Exc "TypeError" ("'" ++ json_type_name j ++ "' object is not subscriptable"))
  end.

(** The part of a chat completion the wrappers read:
    [response.choices[i].message.tool_calls[j].function.arguments]. *)
Record ToolCall : Type := { arguments : string }.
Record Choice : Type := { tool_calls : option (list ToolCall) }.
Record Response : Type := { choices : list Choice }.

(** [response.choices[0].message.tool_calls[0].function.arguments]. *)
Definition first_arguments (response : Response) : PyExc + string :=
  match choices response with
  | [] => inl (Exc "IndexError" "list index out of range")
  | choice :: _ =>
      match tool_calls choice with
      | None => inl (Exc "TypeError" "'NoneType' object is not subscriptable")
      | Some [] => inl (Exc "IndexError" "list index out of range")
      | Some (call :: _) => inr (arguments call)
      end
  end.

Definition nl : string := String (Ascii.ascii_of_nat 10) "".

Section Wrappers.

(** The oracle, [openai.chat.completions.create], by the model, the name of
    the tool it is asked to call and the user message: it returns a response
    or raises one of the library's errors. [json_loads] is [json.loads], and
    [dumps_indent] is [json.dumps(_, indent=2)]. *)
Variable create : string → string → string → PyExc + Response.
Variable json_loads : string → PyExc + Json.
Variable dumps_indent : Json → string.

(** Lines 134-145 of stage 1. *)
Definition classify_body (prompt model : string) : PyExc + Json :=
  do! response := create model "classify_constraints_from_prompt"
                    ("Prompt template:" ++ nl ++ prompt) in
  do! text := first_arguments response in
  do! args := json_loads text in
  json_get args "constraints" (JArr []).

Definition classify_prompt_constraints (prompt model : string)
  : Json * list string :=
  match classify_body prompt model with
  | inr constraints => (constraints, [])
  | inl e => (JArr [], ["[ERROR] Extraction failed: " ++ exc_msg e])
  end.

(** Lines 99-110 of stage 2; the user message is built on line 97. *)
Definition tree_body (prompt : string) (constraints : Json) (model : string)
  : PyExc + Json :=
  let user_prompt :=
    "Prompt:" ++ nl ++ prompt ++ nl ++ nl ++ "Constraints:" ++ nl ++
    dumps_indent constraints in
  do! response := create model "generate_constraint_check_tree" user_prompt in
  do! text := first_arguments response in
  do! args := json_loads text in
  json_subscript args "tree".

Definition generate_evaluation_tree (prompt : string) (constraints : Json)
    (model : string) : Json * list string :=
  match tree_body prompt constraints model with
  | inr tree => (tree, [])
  | inl e => (JObj ∅, ["[ERROR] Evaluation tree generation failed: " ++ exc_msg e])
  end.

(** Lines 81-92 of stage 3. *)
Definition code_body (prompt : string) (tree : Json) (model : string)
  : PyExc + Json :=
  do! response := create model "generate_output_checker_code"
                    ("Prompt: " ++ prompt ++ nl ++ nl ++ "Evaluation Tree:" ++ nl ++
                     dumps_indent tree) in
  do! text := first_arguments response in
  do! args := json_loads text in
  json_subscript args "code".

Definition generate_checker_code (prompt : string) (tree : Json) (model : string)
  : Json * list string :=
  match code_body prompt tree model with
  | inr code => (code, [])
  | inl e => (JAtom (SStr ""), ["[ERROR] GPT code generation failed: " ++ exc_msg e])
  end.

(** The ways the request of a wrapper fails: the call of the oracle raises
    (a timeout, a refused request); the response has no choice, or its
    message has no tool call; the arguments of the tool call are not JSON;
    the parsed arguments are not a dict or lack the field, which [access]
    reads. *)
Inductive answer_fails (model tool user : string) (access : Json → PyExc + Json)
  : PyExc → Prop :=
| call_fails e :
    create model tool user = inl e →
    answer_fails model tool user access e
| no_tool_call response e :
    create model tool user = inr response →
    first_arguments response = inl e →
    answer_fails model tool user access e
| not_json response text e :
    create model tool user = inr response →
    first_arguments response = inr text →
    json_loads text = inl e →
    answer_fails model tool user access e
| no_field response text args e :
    create model tool user = inr response →
    first_arguments response = inr text →
    json_loads text = inr args →
    access args = inl e →
    answer_fails model tool user access e.

End Wrappers.

(** Oracles used as concrete inputs. *)
Definition times_out : string → string → string → PyExc + Response :=
  fun _ _ _ => inl (Exc "APITimeoutError" "Request timed out.").

(** A response whose message carries text and no tool call. *)
Definition answers_in_text : string → string → string → PyExc + Response :=
  fun _ _ _ => inr {| choices := [ {| tool_calls := None |} ] |}.

(** A response with one tool call whose arguments are [text]. *)
Definition answers_with (text : string) : string → string → string → PyExc + Response :=
  fun _ _ _ => inr {| choices := [ {| tool_calls := Some [ {| arguments := text |} ] |} ] |}.

(** [json.loads] on the two texts the examples use: the empty object, and a
    text cut short. *)
Definition loads_sample (text : string) : PyExc + Json :=
  if String.eqb text "{}" then inr (JObj ∅)
  else inl (Exc "JSONDecodeError" "Expecting value: line 1 column 1 (char 0)").

End Oracle.

(* ===================================================================== *)
(** ** run_checker.py: the command line                                   *)
(* ===================================================================== *)

Module Cli.
Import Py Harness.

(** What the validator itself printed during a call of the harness: while
    the source was loaded and, when the entry point exists, while it ran. *)
Definition validator_output (code : Source) (input_text output_text : string)
    (w : gmap string PyVal) : list string :=
  match code (module_dict "checker_module") w with
  | (Normal ns, w1, out1) =>
      match ns !! "is_valid_output" with
      | Some entry =>
          (out1 ++ (call entry [VStr output_text; VStr input_text] w1).2)%list
      | None => out1
      end
  | (_, _, out1) => out1
  end.

(** [def is_valid_output(output, input_text): return (1, "ignored", None)] *)
Definition returns_one : Source :=
  def_entry (fun _ => exec_ret (VTuple [VInt 1; VStr "ignored"; VNone])).

(** [def is_valid_output(output, input_text): return (False, {"a"}, None)] *)
Definition returns_a_set : Source :=
  def_entry (fun _ => exec_ret (VTuple [VBool false; VObj "set" true; VNone])).


(** No byte of the text is below 0x20: the text holds none of the control
    characters U+0000 to U+001F, line feed, carriage return and tab among
    them. Bytes from 0x20 up pass, DEL (0x7f) and the UTF-8 bytes of U+0085,
    U+2028 and U+2029 included. *)
Fixpoint free_of_c0 (s : string) : bool :=
  match s with
  | EmptyString => true
  | String c r => (32 <=? Ascii.nat_of_ascii c)%nat && free_of_c0 r
  end.

(** The bytes [ESCAPE_DCT] has no entry for: from 0x20 up, the quote and
    the backslash apart. *)
Definition plain_char (c : Ascii.ascii) : bool :=
  let n := Ascii.nat_of_ascii c in
  (32 <=? n)%nat && negb (n =? 34)%nat && negb (n =? 92)%nat.

Fixpoint plain (s : string) : bool :=
  match s with
  | EmptyString => true
  | String c r => plain_char c && plain r
  end.

Definition plain_opt (t : option string) : bool :=
  match t with None => true | Some s => plain s end.

(** The JSON text of an optional text written without any escape. *)
Definition unescaped (t : option string) : string :=
  match t with None => "null" | Some s => dquote ++ s ++ dquote end.

(** The text files of the file system, by path. Directories, permissions
    and files that are not UTF-8 are not modelled. *)
Definition no_such_file (path : string) : PyExc :=
  Exc "FileNotFoundError" ("[Errno 2] No such file or directory: '" ++ path ++ "'").

(** [open(path, "r", encoding="utf-8").read()]. *)
Definition read_file (files : gmap string string) (path : string) : PyExc + string :=
  match files !! path with
  | Some text => inr text
  | None => inl (no_such_file path)
  end.

Definition newline : string := String (Ascii.ascii_of_nat 10) "".

Definition banner : string := newline ++ "▶️ Running constraint check..." ++ newline.

(** [f"\n🎯 Final Result: {'PASS ✅' if result else 'FAIL ❌'}"]. *)
Definition final_line (result : PyVal) : string :=
  newline ++ "🎯 Final Result: " ++ (if truthy result then "PASS ✅" else "FAIL ❌").

(** DEL, U+007F. *)
Definition del : string := String (Ascii.ascii_of_nat 127) "".

(** [def is_valid_output(output, input_text): return (False, "a\x7fb", None)] *)
Definition keeps_del : Source :=
  def_entry (fun _ => exec_ret (VTuple [VBool false; VStr ("a" ++ del ++ "b"); VNone])).

Section Main.

(** [python text] is what [exec] does with the source [text]. *)
Variable python : string → Source.

(** Lines 51-56, on the parsed arguments. The file is read outside of any
    [try]. *)
Definition main (files : gmap string string) (code_path input_text output_text : string)
  : Exec unit :=
  let! code_string := lift_result (read_file files code_path) in
  print banner ;;!
  let! result := run_generated_checker (python code_string) input_text output_text in
  print (final_line result).

End Main.

End Cli.

(* ===================================================================== *)
(** ** stage1_extraction.py: the assessment of one conditional constraint *)
(* ===================================================================== *)

Module Assess.
Import Py Oracle.

(** [bool(j)] of a parsed JSON value. *)
Definition json_truthy (j : Json) : bool :=
  match j with
  | JAtom v => scalar_truthy v
  | JArr items => match items with [] => false | _ => true end
  | JObj members => negb (Nat.eqb (size members) 0)
  end.

(** The dict of lines 155-159. *)
Definition user_payload (prompt_text : string) (constraint_text source_text : Scalar)
  : Json :=
  JObj (<["prompt" := JAtom (SStr prompt_text)]>
         (<["constraint" := JAtom constraint_text]>
           (<["source" := JAtom source_text]> ∅))).

(** [args.get("condition_verifiable", False)]. *)
Definition read_verdict (args : Json) : PyExc + Json :=
  json_get args "condition_verifiable" (JAtom (SBool false)).

(** The line of lines 173-174. *)
Definition assessment_error (e : PyExc) : string :=
  "[ERROR] Condition verifiability assessment failed: " ++ exc_msg e.

Section Assessment.

(** The oracle and [json.loads] as in the wrappers; [dumps_payload] is
    [json.dumps(_, ensure_ascii=False, indent=2)]. *)
Variable create : string → string → string → PyExc + Response.
Variable json_loads : string → PyExc + Json.
Variable dumps_payload : Json → string.

(** Lines 161-172. *)
Definition assess_body (constraint_text source_text : Scalar)
    (prompt_text model : string) : PyExc + bool :=
  do! resp := create model "assess_single_conditional_condition"
                (dumps_payload (user_payload prompt_text constraint_text source_text)) in
  do! text := first_arguments resp in
  do! args := json_loads text in
  do! verdict := read_verdict args in
  inr (json_truthy verdict).

(** [assess_single_conditional_bool], with the lines printed so far as the
    state it passes on. *)
Definition assess_single_conditional_bool (constraint_text source_text : Scalar)
    (prompt_text model : string) (printed : list string) : bool * list string :=
  match assess_body constraint_text source_text prompt_text model with
  | inr b => (b, printed)
  | inl e => (false, (printed ++ [assessment_error e])%list)
  end.

End Assessment.

(** The request the loop of [filter_code_verifiable_conditionals] makes for
    a record: its constraint and source, the empty text standing for a
    missing field (lines 198-203). *)
Definition asked {OracleState : Type}
    (assess : Scalar → Scalar → string → string → OracleState → bool * OracleState)
    (prompt_text model : string) (st : OracleState) (c : gmap string Scalar)
  : bool * OracleState :=
  assess (dict_get c "constraint" (SStr "")) (dict_get c "source" (SStr ""))
         prompt_text model st.

(** A parser that reads every text as the object
    [{"condition_verifiable": "false"}], with the word false as a string. *)
Definition loads_false_as_text (text : string) : PyExc + Json :=
  inr (JObj (<["condition_verifiable" := JAtom (SStr "false")]> ∅)).

End Assess.

(* ===================================================================== *)
(** ** stage2_tree_generation.py: the printer on any tree                 *)
(* ===================================================================== *)

Module Stage2Any.
Import Py Stage2.

(** The node carries the six keys a line reads. *)
Definition has_keys (n : Node) : bool :=
  forallb (λ k, bool_decide (is_Some (fields_of n !! k))) printed_keys.

(** The first of the six keys, in the order the line reads them, that the
    node lacks. *)
Definition first_missing_key (n : Node) : option string :=
  List.find (λ k, negb (bool_decide (is_Some (fields_of n !! k)))) printed_keys.

Definition key_error (k : string) : PyExc := Exc "KeyError" ("'" ++ k ++ "'").

(** The exception a list of nodes, printed in this order, ends with: the
    [KeyError] of the first node that lacks a key, if there is one. *)
Definition stops_with (nodes : list Node) : option PyExc :=
  match List.find (λ n, negb (has_keys n)) nodes with
  | Some n => option_map key_error (first_missing_key n)
  | None => None
  end.

(** The placements before the first node that lacks a key. *)
Fixpoint drawable (ps : list (string * bool * Node)) : list (string * bool * Node) :=
  match ps with
  | [] => []
  | p :: rest => if has_keys p.2 then p :: drawable rest else []
  end.

End Stage2Any.

(* ===================================================================== *)
(** ** stage3_code_generation.py: the command line                        *)
(* ===================================================================== *)

Module Stage3Main.
Import Py Oracle Cli.

(** [open(p).read() if os.path.exists(p) else p], and [_read_text] of
    stage 1: the content of the file when the text names one, the text
    itself otherwise. *)
Definition read_text (files : gmap string string) (maybe_path : string) : string :=
  default maybe_path (files !! maybe_path).

(** How a script ends: the exception that left it, if any, the files as it
    leaves them, and the lines it printed. *)
Definition Ended : Type := option PyExc * gmap string string * list string.

(** How the error of a wrong argument names the argument: by its type, and
    [None] by itself. *)
Definition argument_name (j : Json) : string :=
  match j with
  | JAtom SNull => "None"
  | _ => json_type_name j
  end.

(** [with open(out, "w") as f: f.write(code_str)]: opening truncates the
    file; [write] takes text only. *)
Definition write_text (files : gmap string string) (out : string) (code_str : Json)
  : option PyExc * gmap string string :=
  match code_str with
  | JAtom (SStr text) => (None, <[out := text]> files)
  | _ =>
      (Some (Exc "TypeError"
               ("write() argument must be str, not " ++ argument_name code_str)),
       <[out := ""]> files)
  end.

Definition generating : string := "[Stage III] Generating Python validator code...".

Definition wrote (out : string) : string :=
  "[Stage III] Wrote validator code to: " ++ out.

(** The user message of the request, line 85. *)
Definition code_request (dumps_indent : Json → string) (prompt_text : string)
    (tree : Json) : string :=
  "Prompt: " ++ prompt_text ++ nl ++ nl ++ "Evaluation Tree:" ++ nl ++
  dumps_indent tree.

Section Main.

Variable create : string → string → string → PyExc + Response.
Variable json_loads : string → PyExc + Json.
Variable dumps_indent : Json → string.

(** Lines 107-116, on the parsed arguments. *)
Definition main (files : gmap string string) (prompt tree_path model out : string)
  : Ended :=
  let prompt_text := read_text files prompt in
  match read_file files tree_path with
  | inl e => (Some e, files, [])
  | inr text =>
      match json_loads text with
      | inl e => (Some e, files, [])
      | inr tree =>
          match generate_checker_code create json_loads dumps_indent
                  prompt_text tree model with
          | (code_str, printed) =>
              match write_text files out code_str with
              | (Some e, files') =>
                  (Some e, files', generating :: printed)
              | (None, files') =>
                  (None, files', (generating :: printed ++ [wrote out])%list)
              end
          end
      end
  end.

End Main.

(** Inputs used as concrete examples: a file system with a tree file; a
    parser that knows the empty object and, for the text [code], an answer
    with a validator; and [exec] on the empty source, which binds nothing
    but [__builtins__]. *)
Definition sample_files : gmap string string := <["tree.json" := "{}"]> ∅.

Definition loads_code (text : string) : PyExc + Json :=
  if String.eqb text "{}" then inr (JObj ∅)
  else inr (JObj (<["code" :=
                    JAtom (SStr "def is_valid_output(o, i): return (True, None, None)")]> ∅)).

Definition python_sample (text : string) : Harness.Source :=
  if String.eqb text ""
  then (fun d => exec_ret (<["__builtins__" := Harness.BVal (VObj "dict" true)]> d))
  else Harness.always_true.

End Stage3Main.

(* ===================================================================== *)
(** ** stage2_tree_generation.py: the command line                        *)
(* ===================================================================== *)

Module Stage2Main.
Import Py Oracle Cli Assess Stage2 Stage3Main.

(** The parsed JSON values that are scalars. *)
Definition atom_of (j : Json) : option Scalar :=
  match j with JAtom v => Some v | _ => None end.

(** A dict all of whose values are scalars. *)
Definition atoms_of (m : gmap string Json) : option (gmap string Scalar) :=
  if bool_decide (map_Forall (λ _ v, is_Some (atom_of v)) m)
  then Some (omap atom_of m) else None.

Definition all_some {A} : list (option A) → option (list A) :=
  fix go (l : list (option A)) : option (list A) :=
    match l with
    | [] => Some []
    | None :: _ => None
    | Some x :: r => match go r with Some xs => Some (x :: xs) | None => None end
    end.

(** The trees the printer is modelled on, among the parsed JSON values: a
    dict whose value under ["children"], if any, is a list of such dicts and
    whose other values are scalars. *)
Fixpoint as_node (j : Json) : option Node :=
  match j with
  | JObj members =>
      let kids := (λ v, match v with
                        | JArr items => all_some (map as_node items)
                        | _ => None
                        end) <$> members in
      match kids !! "children" with
      | Some None => None
      | Some (Some cs) =>
          match atoms_of (delete "children" members) with
          | Some fields => Some (MkNode fields cs)
          | None => None
          end
      | None =>
          match atoms_of members with
          | Some fields => Some (MkNode fields [])
          | None => None
          end
      end
  | _ => None
  end.

Definition generating_tree : string := "[Stage II] Generating evaluation tree...".

Definition wrote_tree (out : string) : string :=
  "[Stage II] Wrote evaluation tree to: " ++ out.

Definition preview_header : string := nl ++ "[Stage II] Tree preview:".

Section Main.

(** [dumps_pretty] is [json.dumps(_, ensure_ascii=False, indent=2)], the
    text [json.dump] writes on line 149. *)
Variable create : string → string → string → PyExc + Response.
Variable json_loads : string → PyExc + Json.
Variable dumps_indent : Json → string.
Variable dumps_pretty : Json → string.

(** Lines 141-154, on the parsed arguments. The result is [None] when the
    tree to preview is outside the trees the printer is modelled on. *)
Definition main (files : gmap string string)
    (prompt constraints_path model out : string) : option Ended :=
  let prompt_text := read_text files prompt in
  match read_file files constraints_path with
  | inl e => Some (Some e, files, [])
  | inr text =>
      match json_loads text with
      | inl e => Some (Some e, files, [])
      | inr constraints =>
          match generate_evaluation_tree create json_loads dumps_indent
                  prompt_text constraints model with
          | (tree, printed) =>
              let files' := <[out := dumps_pretty tree]> files in
              let lines := (generating_tree :: printed ++ [wrote_tree out])%list in
              if json_truthy tree then
                match as_node tree with
                | Some n =>
                    match pretty_print_tree n "" true with
                    | (drawn, r) =>
                        Some (r, files', (lines ++ preview_header :: drawn)%list)
                    end
                | None => None
                end
              else Some (None, files', lines)
          end
      end
  end.

End Main.

(** The user message of the request, line 97. *)
Definition tree_request (dumps_indent : Json → string) (prompt_text : string)
    (constraints : Json) : string :=
  "Prompt:" ++ nl ++ prompt_text ++ nl ++ nl ++ "Constraints:" ++ nl ++
  dumps_indent constraints.

(** The dict of a node, for the examples. *)
Fixpoint json_of_node (n : Node) : Json :=
  match n with
  | MkNode fields children =>
      JObj (<["children" := JArr (map json_of_node children)]> (JAtom <$> fields))
  end.

(** A parser for the examples: the text [tree] is an answer that holds the
    tree with bare leaves, any other text is the empty list. *)
Definition loads_tree (text : string) : PyExc + Json :=
  if String.eqb text "tree"
  then inr (JObj (<["tree" := json_of_node bare_tree]> ∅))
  else inr (JArr []).

Definition constraints_files : gmap string string := <["constraints.json" := "[]"]> ∅.

End Stage2Main.

(* ===================================================================== *)
(** ** stage1_extraction.py: the command line                             *)
(* ===================================================================== *)

Module Stage1Main.
Import Py Oracle Cli Assess Stage1 Stage3Main Stage2Main.

(** The constraint lists the filters are modelled on, among the parsed JSON
    values: a list of dicts whose values are scalars. *)
Definition as_record (j : Json) : option (gmap string Scalar) :=
  match j with JObj members => atoms_of members | _ => None end.

Definition as_records (j : Json) : option (list (gmap string Scalar)) :=
  match j with JArr items => all_some (map as_record items) | _ => None end.

Definition json_of_records (l : list (gmap string Scalar)) : Json :=
  JArr (map (λ r, JObj (JAtom <$> r)) l).

Definition extracting : string := "[Stage I] Extracting constraints...".

Definition saved_raw (path : string) : string :=
  "[Stage I] Saved raw constraints to: " ++ path.

Definition wrote_constraints (out : string) : string :=
  "[Stage I] Wrote code-verifiable constraints to: " ++ out.

(** [if args.save_raw]: the option was given, with a path that is not the
    empty text. *)
Definition wants_raw (save_raw : option string) : option string :=
  match save_raw with
  | Some path => if String.eqb path "" then None else Some path
  | None => None
  end.

Section Main.

Variable create : string → string → string → PyExc + Response.
Variable json_loads : string → PyExc + Json.
Variable dumps_pretty : Json → string.

(** Lines 225-240, on the parsed arguments. The result is [None] when the
    constraints received are outside the lists the filters are modelled
    on. *)
Definition main (files : gmap string string) (prompt model out : string)
    (save_raw : option string) : option Ended :=
  let prompt_text := read_text files prompt in
  match classify_prompt_constraints create json_loads prompt_text model with
  | (raw, printed) =>
      let after_raw :=
        match wants_raw save_raw with
        | Some path =>
            (<[path := dumps_pretty raw]> files,
             (extracting :: printed ++ [saved_raw path])%list)
        | None => (files, extracting :: printed)
        end in
      match as_records raw with
      | None => None
      | Some records =>
          match stage1_filters
                  (assess_single_conditional_bool create json_loads dumps_pretty)
                  records prompt_text model after_raw.2 with
          | (filtered, lines) =>
              Some (None,
                    <[out := dumps_pretty (json_of_records filtered)]> after_raw.1,
                    (lines ++ [wrote_constraints out])%list)
          end
      end
  end.

End Main.

End Stage1Main.

(* ===================================================================== *)
(** ** calculate_bleu.py                                                  *)
(* ===================================================================== *)

Module Bleu.

(** Text is a list of code points here, since the helpers go character by
    character. What Python's libraries decide is taken as given: which
    characters are whitespace ([str.isspace], which is also what [\s]
    matches and what [strip] removes), [str.lower], and the floats: 1.0,
    0.0, the true division of two integers, and nltk's [sentence_bleu]
    under the smoothing function of line 8. *)
Section Metric.

Variable isspace : N → bool.
Variable lower : list N → list N.
Variable F : Type.
Variables (one zero : F).
Variable true_div : nat → nat → F.
Variable has_nltk : bool.
Variable sentence_bleu : list (list (list N)) → list (list N) → F.

Fixpoint lstrip (s : list N) : list N :=
  match s with
  | [] => []
  | c :: r => if isspace c then lstrip r else s
  end.

(** [s.strip()]. *)
Definition strip (s : list N) : list N :=
  reverse (lstrip (reverse (lstrip s))).

(** [re.sub(r"\s+", " ", s)]: each maximal run of whitespace becomes one
    space. [in_run] tells that the run the character belongs to has been
    replaced already. *)
Fixpoint collapse_from (in_run : bool) (s : list N) : list N :=
  match s with
  | [] => []
  | c :: r =>
      if isspace c
      then if in_run then collapse_from true r else 32%N :: collapse_from true r
      else c :: collapse_from false r
  end.

Definition collapse (s : list N) : list N := collapse_from false s.

(** Lines 22-23: one pair of outer quotes, double or single, is removed. *)
Definition unquote (s : list N) : list N :=
  match s, last s with
  | c :: _, Some d =>
      if (2 <=? length s)%nat &&
         ((N.eqb c 34 && N.eqb d 34) || (N.eqb c 39 && N.eqb d 39))
      then take (length s - 2) (drop 1 s)
      else s
  | _, _ => s
  end.

Definition _normalize (s : option (list N)) : list N :=
  match s with
  | None => []
  | Some text => unquote (collapse (lower (strip text)))
  end.

Definition push_token (cur : list N) (tokens : list (list N)) : list (list N) :=
  match cur with [] => tokens | _ => cur :: tokens end.

(** The token that starts at the head of the text, and the tokens after
    it. *)
Fixpoint split_from (s : list N) : list N * list (list N) :=
  match s with
  | [] => ([], [])
  | c :: r =>
      match split_from r with
      | (cur, tokens) =>
          if isspace c then ([], push_token cur tokens) else (c :: cur, tokens)
      end
  end.

(** [s.split()]: the maximal runs of characters that are not whitespace. *)
Definition split (s : list N) : list (list N) :=
  match split_from s with (cur, tokens) => push_token cur tokens end.

(** [tokens.count(t)]. *)
Definition count (t : list N) (tokens : list (list N)) : nat :=
  length (filter (λ u, u = t) tokens).

(** Line 60: the sum over the distinct tokens of the hypothesis. The order
    in which a set is gone through does not change a sum. *)
Definition common (ref_tokens hyp_tokens : list (list N)) : nat :=
  list_sum (map (λ t, min (count t ref_tokens) (count t hyp_tokens))
                (remove_dups hyp_tokens)).

Definition _bleu (ref hyp : option (list N)) : F :=
  let ref_norm := _normalize ref in
  let hyp_norm := _normalize hyp in
  let ref_empty := bool_decide (ref_norm = []) in
  let hyp_empty := bool_decide (hyp_norm = []) in
  if ref_empty && hyp_empty then one
  else if negb (eqb ref_empty hyp_empty) then zero
  else
    let ref_tokens := split ref_norm in
    let hyp_tokens := split hyp_norm in
    if bool_decide (ref_tokens = []) || bool_decide (hyp_tokens = []) then zero
    else if has_nltk then sentence_bleu [ref_tokens] hyp_tokens
    else if bool_decide (ref_norm = hyp_norm) then one
    else true_div (common ref_tokens hyp_tokens) (max (length hyp_tokens) 1).

Definition compute_bleu (gold reason : list N) : F := _bleu (Some gold) (Some reason).

(** In a tidy text every whitespace character is a space and is followed
    by a character that is not whitespace, or by the end. *)
Fixpoint tidy (l : list N) : Prop :=
  match l with
  | [] => True
  | c :: r =>
      (isspace c = true → c = 32%N ∧ ∀ d, head r = Some d → isspace d = false) ∧
      tidy r
  end.

End Metric.

(** Whitespace among the ASCII characters, and the lower case of ASCII
    letters, for the examples. *)
Definition ascii_space (c : N) : bool :=
  ((9 <=? c) && (c <=? 13) || (28 <=? c) && (c <=? 32))%N.

Definition ascii_lower (s : list N) : list N :=
  map (λ c, if ((65 <=? c) && (c <=? 90))%N then (c + 32)%N else c) s.

End Bleu.

(* ===================================================================== *)
(** ** Properties of the harness                                          *)
(* ===================================================================== *)

Import Py Harness Stage1 Stage2 Oracle.

Section HarnessFacts.

Implicit Types (code : Source) (w : gmap string PyVal) (out : list string).

(** Once the entry point has returned, the try block goes on with [report]. *)
Lemma body_after_return code i o w result w' out :
  entry_returns code i o w result w' out →
  checker_body code i o w =
    match report result w' with (r, w2, out2) => (r, w2, (out ++ out2)%list) end.
Proof.
  intros (ns & w1 & out1 & entry & out2 & Hload & Hentry & Hcall & ->).
  unfold checker_body, exec_bind. rewrite Hload, Hentry, Hcall.
  destruct (report result w') as [[r w2] out3].
  by rewrite app_assoc.
Qed.



Lemma body_after_divergence code i o w w' out :
  validator_diverges code i o w w' out →
  checker_body code i o w = (Diverge, w', out).
Proof.
  intros [Hload | (ns & w1 & out1 & entry & out2 & Hload & Hentry & Hcall & ->)];
    unfold checker_body, exec_bind; rewrite Hload; [done|].
  by rewrite Hentry, Hcall.
Qed.

(** An exception of the try block becomes the error line and [False]. *)
Lemma run_of_raise code i o w e w' out :
  checker_body code i o w = (Raise e, w', out) →
  run_generated_checker code i o w =
    (Normal (VBool false), w', (out ++ [error_line e])%list).
Proof. intros H. unfold run_generated_checker, try_except. by rewrite H. Qed.

Lemma append_assoc (a b c : string) : (a ++ b) ++ c = a ++ b ++ c.
Proof.
  induction a as [|ch a IH]; [done|].
  change (String ch ((a ++ b) ++ c) = String ch (a ++ b ++ c)). by rewrite IH.
Qed.

(** The text of a dict of three fields. *)
Lemma dumps_three k1 k2 k3 v1 v2 v3 j1 j2 j3 :
  json_dumps v1 = inr j1 → json_dumps v2 = inr j2 → json_dumps v3 = inr j3 →
  json_dumps_dict [(k1, v1); (k2, v2); (k3, v3)] =
    inr ("{" ++ encode_basestring k1 ++ ": " ++ j1 ++ ", " ++
         encode_basestring k2 ++ ": " ++ j2 ++ ", " ++
         encode_basestring k3 ++ ": " ++ j3 ++ "}").
Proof.
  intros H1 H2 H3. unfold json_dumps_dict, map_result, dumps_field. simpl.
  rewrite H1, H2, H3. simpl. unfold join. by rewrite !append_assoc.
Qed.

Lemma dumps_verdict_record b reason violation jr jv :
  json_dumps reason = inr jr → json_dumps violation = inr jv →
  json_dumps_dict (verdict_record b reason violation) =
    inr (verdict_text (json_bool b) jr jv).
Proof.
  intros Hr Hv. unfold verdict_record, verdict_text.
  apply dumps_three; [by destruct b | done | done].
Qed.

(** *** The printed record loses nothing *)

Lemma read_body_step c t : read_body (escape_char c ++ t) = push c (read_body t).
Proof. destruct c as [[] [] [] [] [] [] [] []]; vm_compute; reflexivity. Qed.

Lemma read_body_escaped s rest :
  read_body (escape_chars s ++ dquote ++ rest) = Some (s, rest).
Proof.
  induction s as [|c s IH]; [done|].
  change (escape_chars (String c s)) with (escape_char c ++ escape_chars s).
  by rewrite append_assoc, read_body_step, IH.
Qed.

(** Reading an encoded text gives the text back, and what follows it. *)
Lemma read_literal_encoded s rest :
  read_literal (encode_basestring s ++ rest) = Some (s, rest).
Proof.
  unfold encode_basestring. rewrite !append_assoc.
  change (read_body (escape_chars s ++ dquote ++ rest) = Some (s, rest)).
  apply read_body_escaped.
Qed.

(** The JSON text of an optional text ends where it ends: what follows it
    cannot be mistaken for a part of it. *)
Lemma json_opt_text_delimited r1 r2 x y :
  json_opt_text r1 ++ x = json_opt_text r2 ++ y → r1 = r2 ∧ x = y.
Proof.
  destruct r1 as [s1|], r2 as [s2|]; simpl; intros H.
  - apply (f_equal read_literal) in H.
    rewrite !read_literal_encoded in H. by injection H as -> ->.
  - exfalso. unfold encode_basestring in H. rewrite !append_assoc in H.
    by inversion H.
  - exfalso. unfold encode_basestring in H. rewrite !append_assoc in H.
    by inversion H.
  - split; [done|]. by inversion H.
Qed.

(** Two unsatisfied records with the same text carry the same reason and
    the same violation. *)
Lemma verdict_text_lossless sat r1 v1 r2 v2 :
  verdict_text sat (json_opt_text r1) (json_opt_text v1) =
  verdict_text sat (json_opt_text r2) (json_opt_text v2) →
  r1 = r2 ∧ v1 = v2.
Proof.
  unfold verdict_text. intros H.
  do 7 apply (inj (String.append _)) in H.
  apply json_opt_text_delimited in H as [-> H].
  do 3 apply (inj (String.append _)) in H.
  by apply json_opt_text_delimited in H as [-> _].
Qed.

Lemma report_truthy passed reason violation w :
  truthy passed = true →
  report (VTuple [passed; reason; violation]) w =
    (Normal passed, w, [verdict_text "true" "null" "null"]).
Proof.
  intros H. unfold report. simpl. rewrite H. unfold emit, exec_bind.
  by rewrite (dumps_verdict_record true VNone VNone "null" "null").
Qed.

Lemma report_falsy passed reason violation jr jv w :
  truthy passed = false →
  json_dumps reason = inr jr → json_dumps violation = inr jv →
  report (VTuple [passed; reason; violation]) w =
    (Normal passed, w, [verdict_text "false" jr jv]).
Proof.
  intros H Hr Hv. unfold report. simpl. rewrite H. unfold emit, exec_bind.
  by rewrite (dumps_verdict_record false reason violation jr jv).
Qed.

Lemma json_dumps_opt_text t : json_dumps (opt_text t) = inr (json_opt_text t).
Proof. by destruct t. Qed.

(** The text of a dict starts with a brace, an error line does not. *)
Lemma error_line_is_no_record e : ¬ is_verdict_record (error_line e).
Proof.
  intros (d & _ & Hd). unfold json_dumps_dict in Hd.
  destruct (map_result dumps_field d); [done|].
  inversion Hd.
Qed.

Lemma map_result_raises {A B} (f : A → PyExc + B) (P : PyExc → Prop) l e :
  Forall (λ x, ∀ e, f x = inl e → P e) l →
  map_result f l = inl e → P e.
Proof.
  induction 1 as [|x r Hx _ IH]; [done|]. simpl.
  destruct (f x) as [ex|y] eqn:Hfx; simpl.
  - intros [= <-]. by apply Hx.
  - destruct (map_result f r); simpl; [|done]. intros [= <-]. by apply IH.
Qed.

(** [json.dumps] raises nothing but [TypeError]. *)
Lemma json_dumps_raises_type_error :
  ∀ v e, json_dumps v = inl e → exc_class e = "TypeError".
Proof.
  fix IH 1.
  intros [ | [] | n | s | items | items | t tr] e H; simpl in H; try done.
  - destruct (map_result json_dumps items) eqn:Hm; simpl in H; [|done].
    inversion H; subst.
    eapply (map_result_raises json_dumps (λ e, exc_class e = "TypeError"));
      [|exact Hm].
    clear Hm H. induction items as [|x r IHr]; constructor; [apply IH | apply IHr].
  - destruct (map_result json_dumps items) eqn:Hm; simpl in H; [|done].
    inversion H; subst.
    eapply (map_result_raises json_dumps (λ e, exc_class e = "TypeError"));
      [|exact Hm].
    clear Hm H. induction items as [|x r IHr]; constructor; [apply IH | apply IHr].
  - by inversion H.
Qed.

(** The report of a 3-tuple never raises the shape error. *)
Lemma report_of_tuple_no_shape_error result w :
  tuple_of_3 result → (report result w).1.1 ≠ Raise malformed_return.
Proof.
  intros [Ht Hl]. destruct result as [ | | | | items | | ]; try done.
  destruct items as [|passed [|reason [|violation [|]]]]; try done.
  unfold report. simpl. unfold exec_bind, emit, exec_bind.
  destruct (truthy passed).
  - by rewrite (dumps_verdict_record true VNone VNone "null" "null").
  - destruct (json_dumps_dict (verdict_record false reason violation)) as [e|line] eqn:Hd;
      [|done].
    simpl. intros [= He]. 
    assert (exc_class e = "TypeError") as Hc; [|by rewrite He in Hc].
    unfold json_dumps_dict in Hd.
    destruct (map_result dumps_field (verdict_record false reason violation))
      eqn:Hm; simpl in Hd; [|done].
    inversion Hd; subst.
    eapply (map_result_raises dumps_field (λ e, exc_class e = "TypeError")); [|exact Hm].
    apply Forall_forall. intros [k v] _ e' He'. unfold dumps_field in He'. simpl in He'.
    destruct (json_dumps v) eqn:Hv; simpl in He'; [|done].
    inversion He'; subst. by eapply json_dumps_raises_type_error.
Qed.

Lemma report_of_other_shape result w :
  ¬ tuple_of_3 result → report result w = (Raise malformed_return, w, []).
Proof.
  intros H. unfold report.
  destruct result as [ | | | | items | | ]; try done.
  destruct items as [|a [|b [|c [|d r]]]]; try done.
  destruct H. by split.
Qed.

(** *** Computations that ignore the process state *)








End HarnessFacts.

Section HarnessClaims.

Implicit Types (code : Source) (w : gmap string PyVal) (out : list string).

Lemma run_after_return code i o w result w' out r w2 out2 :
  entry_returns code i o w result w' out →
  report result w' = (Normal r, w2, out2) →
  run_generated_checker code i o w = (Normal r, w2, (out ++ out2)%list).
Proof.
  intros Hret Hrep. unfold run_generated_checker, try_except.
  by rewrite (body_after_return _ _ _ _ _ _ _ Hret), Hrep.
Qed.

(** C1. When the entry point returns a 3-tuple [(passed, reason, violation)]:
    if [passed] is [True] the harness prints the satisfied record with reason
    and violation null, whatever the validator supplied for them; if
    [passed] is [False] and reason and violation are optional text, it
    prints the unsatisfied record carrying exactly these two values. In both
    cases nothing else is printed by the harness and [passed] is returned. *)
Theorem verdict_follows_returned_tuple code i o w passed reason violation w' out :
  entry_returns code i o w (VTuple [VBool passed; reason; violation]) w' out →
  (passed = true →
     run_generated_checker code i o w =
       (Normal (VBool true), w',
        (out ++ [verdict_text "true" "null" "null"])%list)) ∧
  (passed = false → ∀ r v : option string,
     reason = opt_text r → violation = opt_text v →
     run_generated_checker code i o w =
       (Normal (VBool false), w',
        (out ++ [verdict_text "false" (json_opt_text r) (json_opt_text v)])%list)) ∧
  (∀ r1 v1 r2 v2 : option string,
     verdict_text "false" (json_opt_text r1) (json_opt_text v1) =
     verdict_text "false" (json_opt_text r2) (json_opt_text v2) →
     r1 = r2 ∧ v1 = v2).
Proof.
  intros Hret. split; [|split].
  - intros ->. eapply run_after_return; [exact Hret|]. by apply report_truthy.
  - intros -> r v -> ->. eapply run_after_return; [exact Hret|].
    apply report_falsy; [done | apply json_dumps_opt_text ..].
  - apply verdict_text_lossless.
Qed.

Lemma verdict_follows_returned_tuple_witness :
  entry_returns too_short "in" "out" ∅
    (VTuple [VBool false; opt_text (Some "too short");
             opt_text (Some "output must exceed 10 words")]) ∅ [] ∧
  run_generated_checker too_short "in" "out" ∅ =
    (Normal (VBool false), ∅,
     [verdict_text "false" (encode_basestring "too short")
        (encode_basestring "output must exceed 10 words")]).
Proof.
  assert (entry_returns too_short "in" "out" ∅
            (VTuple [VBool false; opt_text (Some "too short");
                     opt_text (Some "output must exceed 10 words")]) ∅ []) as H.
  { eexists _, _, _, _, _. repeat split; reflexivity. }
  split; [exact H|].
  exact (proj1 (proj2 (verdict_follows_returned_tuple too_short "in" "out" ∅ false
                         _ _ ∅ [] H))
               eq_refl (Some "too short") (Some "output must exceed 10 words")
               eq_refl eq_refl).
Defined.

(** C2, as the code has it. When the entry point returns, the shape error is
    raised exactly when the value is not a tuple of length 3: a tuple of
    length 3 never raises it, and any other value, a list of three elements
    included, ends in the error line of the malformed return and [False]. *)
Theorem shape_check_accepts_tuples_of_3 code i o w result w' out :
  entry_returns code i o w result w' out →
  (tuple_of_3 result →
     (checker_body code i o w).1.1 ≠ Raise malformed_return) ∧
  (¬ tuple_of_3 result →
     run_generated_checker code i o w =
       (Normal (VBool false), w', (out ++ [error_line malformed_return])%list)).
Proof.
  intros Hret. split; intros Hshape.
  - rewrite (body_after_return _ _ _ _ _ _ _ Hret).
    pose proof (report_of_tuple_no_shape_error result w' Hshape) as Hno.
    by destruct (report result w') as [[r w2] out2].
  - apply run_of_raise. rewrite (body_after_return _ _ _ _ _ _ _ Hret).
    rewrite (report_of_other_shape _ _ Hshape). by rewrite app_nil_r.
Qed.

Lemma shape_check_accepts_tuples_of_3_witness :
  ¬ tuple_of_3 (VTuple [VBool true; VNone]) ∧
  run_generated_checker returns_pair "in" "out" ∅ =
    (Normal (VBool false), ∅, [error_line malformed_return]).
Proof.
  assert (¬ tuple_of_3 (VTuple [VBool true; VNone])) as Hshape.
  { intros [_ Hlen]. simpl in Hlen. lia. }
  split; [exact Hshape|].
  refine (proj2 (shape_check_accepts_tuples_of_3 returns_pair "in" "out" ∅
                   (VTuple [VBool true; VNone]) ∅ [] _) Hshape).
  eexists _, _, _, _, _. repeat split; reflexivity.
Defined.

(** C2, as the spec words it, fails: a list of three elements is an ordered
    3-element sequence, and the harness answers it with the shape error. *)
Lemma list_of_three_is_rejected :
  ordered_3_sequence (VList [VBool true; VNone; VNone]) ∧
  entry_returns returns_list "in" "out" ∅ (VList [VBool true; VNone; VNone]) ∅ [] ∧
  run_generated_checker returns_list "in" "out" ∅ =
    (Normal (VBool false), ∅, [error_line malformed_return]).
Proof.
  split; [reflexivity|]. split; [|reflexivity].
  eexists _, _, _, _, _. repeat split; reflexivity.
Qed.

(** C3. A source that loads and leaves no binding for [is_valid_output]:
    the harness prints the error line of the missing entry point, which is
    not a verdict record, prints nothing else, and returns [False]. *)
Theorem missing_entry_point_is_reported code i o w w' out :
  loads_without_entry code w w' out →
  run_generated_checker code i o w =
    (Normal (VBool false), w', (out ++ [error_line missing_entry_point])%list) ∧
  ¬ is_verdict_record (error_line missing_entry_point).
Proof.
  intros (ns & Hload & Hentry). split; [|apply error_line_is_no_record].
  apply run_of_raise. unfold checker_body, exec_bind.
  rewrite Hload, Hentry. unfold raise. by rewrite app_nil_r.
Qed.

Lemma missing_entry_point_is_reported_witness :
  loads_without_entry wrong_name ∅ ∅ [] ∧
  run_generated_checker wrong_name "in" "out" ∅ =
    (Normal (VBool false), ∅, [error_line missing_entry_point]).
Proof.
  assert (loads_without_entry wrong_name ∅ ∅ []) as H.
  { eexists. split; reflexivity. }
  split; [exact H|].
  exact (proj1 (missing_entry_point_is_reported wrong_name "in" "out" ∅ ∅ [] H)).
Defined.




(** An exception at load time is captured in the same way. *)
Example load_time_exception_is_captured :
  run_generated_checker raises_on_load "in" "out" ∅ =
    (Normal (VBool false), ∅, [error_line (Exc "RuntimeError" "boom")]).
Proof. reflexivity. Qed.

(** The order of the two arguments matters to a validator that looks at
    them. *)
Example output_is_the_first_argument :
  run_generated_checker checks_arguments "in" "out" ∅ =
    (Normal (VBool true), ∅, [verdict_text "true" "null" "null"]) ∧
  run_generated_checker checks_arguments "out" "in" ∅ =
    (Normal (VBool false), ∅,
     [verdict_text "false" (encode_basestring "swapped") "null"]).
Proof. split; reflexivity. Qed.

(** C5. When the entry point returns a 3-tuple of a boolean and two optional
    texts, the harness prints exactly one line, the JSON text of a dict whose
    keys are satisfied, reason, violation in this order and whose first
    value is the value the harness returns. *)
Theorem one_verdict_record_in_fixed_order code i o w passed reason violation w' out :
  entry_returns code i o w
    (VTuple [VBool passed; opt_text reason; opt_text violation]) w' out →
  ∃ (d : PyDict) (line jr jv : string),
    run_generated_checker code i o w =
      (Normal (VBool passed), w', (out ++ [line])%list) ∧
    json_dumps_dict d = inr line ∧
    d.*1 = ["satisfied"; "reason"; "violation"] ∧
    d !! 0%nat = Some ("satisfied", VBool passed) ∧
    line = verdict_text (json_bool passed) jr jv.
Proof.
  intros Hret. destruct passed.
  - exists (verdict_record true VNone VNone), (verdict_text "true" "null" "null"),
      "null", "null".
    split; [|split; [by apply dumps_verdict_record | done]].
    eapply run_after_return; [exact Hret|]. by apply report_truthy.
  - exists (verdict_record false (opt_text reason) (opt_text violation)),
      (verdict_text "false" (json_opt_text reason) (json_opt_text violation)),
      (json_opt_text reason), (json_opt_text violation).
    split; [|split; [by apply dumps_verdict_record; apply json_dumps_opt_text | done]].
    eapply run_after_return; [exact Hret|].
    apply report_falsy; [done | apply json_dumps_opt_text ..].
Qed.

Lemma one_verdict_record_in_fixed_order_witness :
  entry_returns always_true "in" "out" ∅
    (VTuple [VBool true; opt_text None; opt_text None]) ∅ [] ∧
  ∃ (d : PyDict) (line jr jv : string),
    run_generated_checker always_true "in" "out" ∅ =
      (Normal (VBool true), ∅, ([] ++ [line])%list) ∧
    json_dumps_dict d = inr line ∧
    d.*1 = ["satisfied"; "reason"; "violation"] ∧
    d !! 0%nat = Some ("satisfied", VBool true) ∧
    line = verdict_text (json_bool true) jr jv.
Proof.
  assert (entry_returns always_true "in" "out" ∅
            (VTuple [VBool true; opt_text None; opt_text None]) ∅ []) as H.
  { eexists _, _, _, _, _. repeat split; reflexivity. }
  split; [exact H|].
  exact (one_verdict_record_in_fixed_order always_true "in" "out" ∅ true None None ∅ [] H).
Defined.




(** C9, as the code has it. The harness sets no budget: when loading the
    source or running the entry point does not terminate, the harness does
    not return; it prints nothing after what the validator printed, so no
    error is reported. *)
Theorem harness_waits_for_the_validator code i o w w' out :
  validator_diverges code i o w w' out →
  run_generated_checker code i o w = (Diverge, w', out).
Proof.
  intros H. unfold run_generated_checker, try_except.
  by rewrite (body_after_divergence _ _ _ _ _ _ H).
Qed.

Lemma harness_waits_for_the_validator_witness :
  validator_diverges loops_forever "in" "out" ∅ ∅ [] ∧
  run_generated_checker loops_forever "in" "out" ∅ = (Diverge, ∅, []).
Proof.
  assert (validator_diverges loops_forever "in" "out" ∅ ∅ []) as H.
  { apply diverges_in_call. eexists _, _, _, _, _. repeat split; reflexivity. }
  split; [exact H|].
  exact (harness_waits_for_the_validator loops_forever "in" "out" ∅ ∅ [] H).
Defined.

(** C9, as the spec words it, fails: on a validator whose entry point loops
    for ever the harness reports no timeout; it does not return at all. *)
Lemma endless_validator_hangs_the_harness :
  entry_ends loops_forever "in" "out" ∅ Diverge ∅ [] ∧
  run_generated_checker loops_forever "in" "out" ∅ = (Diverge, ∅, []) ∧
  (run_generated_checker loops_forever "in" "out" ∅).1.1 ≠ Normal (VBool false).
Proof.
  split; [|split; [reflexivity | discriminate]].
  eexists _, _, _, _, _. repeat split; reflexivity.
Qed.

End HarnessClaims.

(* ===================================================================== *)
(** ** Properties of the stage-1 filters                                  *)
(* ===================================================================== *)

Section Stage1Claims.

Context {OracleState : Type}.
Variable assess : Scalar → Scalar → string → string → OracleState → bool * OracleState.

Implicit Types (c : gmap string Scalar) (l kept : list (gmap string Scalar)).

Lemma eq_str_get c k s :
  eq_str (dict_get c k SNull) s = true ↔ c !! k = Some (SStr s).
Proof.
  unfold dict_get. destruct (c !! k) as [[ | b | n | t]|]; simpl; try by split.
  rewrite String.eqb_eq. split; [by intros -> | by intros [= ->]].
Qed.

Lemma code_verifiable_category c :
  code_verifiable c ↔
  ∃ s, c !! "category" = Some (SStr s) ∧ s ∈ code_verifiable_categories.
Proof.
  unfold code_verifiable, dict_get.
  destruct (c !! "category") as [[ | b | n | t]|]; simpl;
    try (split; [done | by intros (s & [=] & _)]).
  rewrite bool_decide_spec. split; [by exists t | by intros (s & [= ->] & Hs)].
Qed.

(** The loop appends to [kept]: some of the records, in their order; all
    the unconditional ones; none that is neither conditional nor
    unconditional. *)
Lemma loop_keeps prompt model l :
  ∀ acc st, ∃ kept,
    (fold_left (keep_step assess prompt model) l (acc, st)).1 = (acc ++ kept)%list ∧
    kept `sublist_of` l ∧
    (∀ c, c ∈ kept → is_unconditional c = true ∨ is_conditional c = true) ∧
    filter (λ c, is_unconditional c) kept = filter (λ c, is_unconditional c) l.
Proof.
  induction l as [|a l IH]; intros acc st.
  { exists []. rewrite app_nil_r. repeat split; [done | by intros c ?%elem_of_nil]. }
  cbn [fold_left].
  assert (Hstep : keep_step assess prompt model (acc, st) a =
    if is_unconditional a then ((acc ++ [a])%list, st)
    else if is_conditional a then
      let '(ok, st') := assess (dict_get a "constraint" (SStr ""))
                          (dict_get a "source" (SStr "")) prompt model st in
      if ok then ((acc ++ [a])%list, st') else (acc, st')
    else (acc, st)) by reflexivity.
  rewrite Hstep. clear Hstep.
  destruct (is_unconditional a) eqn:Hu.
  - destruct (IH (acc ++ [a])%list st) as (kept & Hk & Hsub & Hty & Hun).
    exists (a :: kept). rewrite Hk, <- app_assoc. repeat split.
    + by apply sublist_skip.
    + intros c [->|Hc]%elem_of_cons; [by left | by apply Hty].
    + rewrite !filter_cons, Hu. simpl. by rewrite Hun.
  - destruct (is_conditional a) eqn:Hc.
    + destruct (assess _ _ prompt model st) as [[] st'].
      * destruct (IH (acc ++ [a])%list st') as (kept & Hk & Hsub & Hty & Hun).
        exists (a :: kept). rewrite Hk, <- app_assoc. repeat split.
        -- by apply sublist_skip.
        -- intros c [->|Hin]%elem_of_cons; [by right | by apply Hty].
        -- rewrite !filter_cons, Hu. simpl. by rewrite Hun.
      * destruct (IH acc st') as (kept & Hk & Hsub & Hty & Hun).
        exists kept. repeat split; [done | by apply sublist_cons | done |].
        rewrite (filter_cons _ a), Hu. by simpl.
    + destruct (IH acc st) as (kept & Hk & Hsub & Hty & Hun).
      exists kept. repeat split; [done | by apply sublist_cons | done |].
      rewrite (filter_cons _ a), Hu. by simpl.
Qed.

(** C10. The two filters of stage 1, one after the other, return some of
    the input records in their order; every record returned has a category
    among the four code-verifiable ones; the unconditional records returned
    are exactly the unconditional code-verifiable records of the input, so
    each of these is returned; and a record whose application_type is
    neither "unconditional" nor "conditional", or is missing, is not
    returned. *)
Theorem stage1_filters_keep_verifiable raw prompt model st :
  let kept := (stage1_filters assess raw prompt model st).1 in
  kept `sublist_of` raw ∧
  Forall (λ c, ∃ s, c !! "category" = Some (SStr s) ∧
                    s ∈ code_verifiable_categories) kept ∧
  filter (λ c, is_unconditional c) kept =
    filter (λ c, is_unconditional c) (filter (λ c, code_verifiable c) raw) ∧
  (∀ c, c ∈ raw →
        c !! "application_type" = Some (SStr "unconditional") →
        (∃ s, c !! "category" = Some (SStr s) ∧ s ∈ code_verifiable_categories) →
        c ∈ kept) ∧
  (∀ c, c !! "application_type" ≠ Some (SStr "unconditional") →
        c !! "application_type" ≠ Some (SStr "conditional") →
        c ∉ kept).
Proof.
  unfold stage1_filters, filter_code_verifiable_conditionals,
    filter_code_verifiable_constraints. simpl.
  destruct (loop_keeps prompt model (filter (λ c, code_verifiable c) raw) [] st)
    as (kept & Hk & Hsub & Hty & Hun).
  rewrite Hk. simpl.
  assert (kept `sublist_of` raw) as Hraw.
  { etrans; [exact Hsub | apply sublist_filter]. }
  split; [done|]. split; [|split; [done|split]].
  - apply Forall_forall. intros c Hc. apply code_verifiable_category.
    eapply elem_of_sublist in Hc; [|exact Hsub].
    by apply list_elem_of_filter in Hc as [? _].
  - intros c Hc Happ Hcat.
    assert (c ∈ filter (λ c, is_unconditional c) kept) as Hin.
    { rewrite Hun. apply list_elem_of_filter. split.
      - apply Is_true_true. by apply eq_str_get.
      - apply list_elem_of_filter. split; [by apply code_verifiable_category | done]. }
    by apply list_elem_of_filter in Hin as [_ ?].
  - intros c Hnu Hnc Hc. destruct (Hty c Hc) as [H|H];
      apply eq_str_get in H; contradiction.
Qed.

End Stage1Claims.

Lemma stage1_filters_keep_verifiable_witness :
  stage1_sample_kept ∈ stage1_sample ∧
  stage1_sample_kept ∈ (stage1_filters never_verifiable stage1_sample "p" "gpt-4o" tt).1.
Proof.
  assert (stage1_sample_kept ∈ stage1_sample) as Hin.
  { apply list_elem_of_here. }
  split; [exact Hin|].
  refine (proj1 (proj2 (proj2 (proj2
            (stage1_filters_keep_verifiable never_verifiable stage1_sample "p" "gpt-4o" tt))))
          stage1_sample_kept Hin _ _).
  - reflexivity.
  - eexists. split; [reflexivity|]. vm_compute. reflexivity.
Defined.

(* ===================================================================== *)
(** ** Properties of the tree printer                                     *)
(* ===================================================================== *)

Section Stage2Claims.

(** Induction on a tree, with the property known for the children. *)
Lemma Node_rect_children (P : Node → Prop) :
  (∀ fields children, Forall P children → P (MkNode fields children)) →
  ∀ n, P n.
Proof.
  intros Hnode. fix IH 1. intros [fields children]. apply Hnode.
  induction children as [|c cs IHcs]; constructor; [apply IH | apply IHcs].
Qed.

Lemma pretty_print_tree_node fields children prefix is_last :
  pretty_print_tree (MkNode fields children) prefix is_last =
    match format_line fields prefix is_last with
    | inl e => ([], Some e)
    | inr line =>
        match print_children (extend prefix is_last) children with
        | (ls, r) => (line :: ls, r)
        end
    end.
Proof. reflexivity. Qed.

Lemma placement_node fields children prefix is_last :
  placement (MkNode fields children) prefix is_last =
    (prefix, is_last, MkNode fields children) ::
    place_children (extend prefix is_last) children.
Proof. reflexivity. Qed.

Lemma place_children_cons new_prefix c rest :
  place_children new_prefix (c :: rest) =
    (placement c new_prefix (match rest with [] => true | _ => false end) ++
     place_children new_prefix rest)%list.
Proof. reflexivity. Qed.

Lemma format_line_complete fields children prefix is_last :
  has_printed_keys (MkNode fields children) →
  format_line fields prefix is_last =
    inr (draw (prefix, is_last, MkNode fields children)).
Proof.
  unfold has_printed_keys, printed_keys. simpl. rewrite !Forall_cons.
  intros ([v1 H1] & [v2 H2] & [v3 H3] & [v4 H4] & [v5 H5] & [v6 H6] & _).
  unfold format_line, subscript, draw, annotation, dict_get. simpl.
  rewrite H1, H2, H3, H4, H5, H6. reflexivity.
Qed.

Lemma complete_node fields children :
  complete (MkNode fields children) ↔
  has_printed_keys (MkNode fields children) ∧ Forall complete children.
Proof.
  unfold complete. simpl. rewrite Forall_cons. f_equiv.
  induction children as [|c cs IH]; simpl; [by split|].
  by rewrite Forall_app, Forall_cons, IH.
Qed.

Lemma printer_follows_placement t :
  ∀ prefix is_last, complete t →
  pretty_print_tree t prefix is_last = (map draw (placement t prefix is_last), None).
Proof.
  induction t as [fields children IH] using Node_rect_children.
  intros prefix is_last [Hkeys Hcs]%complete_node.
  rewrite pretty_print_tree_node, placement_node.
  rewrite (format_line_complete _ children _ _ Hkeys).
  assert (print_children (extend prefix is_last) children =
          (map draw (place_children (extend prefix is_last) children), None)) as ->;
    [|done].
  clear Hkeys. generalize (extend prefix is_last). intros np.
  induction children as [|c cs IHcs]; [done|].
  apply Forall_cons in IH as [IHc IH]. apply Forall_cons in Hcs as [Hc Hcs].
  simpl. rewrite (IHc _ _ Hc), (IHcs IH Hcs). by rewrite map_app.
Qed.

Lemma placement_length t :
  ∀ prefix is_last, length (placement t prefix is_last) = node_count t.
Proof.
  induction t as [fields children IH] using Node_rect_children.
  intros prefix is_last. rewrite placement_node.
  change (S (length (place_children (extend prefix is_last) children)) =
          S (list_sum (map node_count children))).
  f_equal. generalize (extend prefix is_last). intros np.
  induction IH as [|c cs IHc _ IHcs]; [done|].
  rewrite place_children_cons, length_app, IHc, IHcs. done.
Qed.

Lemma placement_preorder t :
  ∀ prefix is_last, (placement t prefix is_last).*2 = preorder t.
Proof.
  induction t as [fields children IH] using Node_rect_children.
  intros prefix is_last. rewrite placement_node.
  change (MkNode fields children ::
            (place_children (extend prefix is_last) children).*2 =
          MkNode fields children :: flat_map preorder children).
  f_equal. generalize (extend prefix is_last). intros np.
  induction IH as [|c cs IHc _ IHcs]; [done|].
  rewrite place_children_cons, fmap_app, IHc, IHcs. done.
Qed.

(** The child at index [i] is placed as last exactly when [i] is the last
    index. *)
Lemma place_children_indexed new_prefix cs :
  place_children new_prefix cs =
    mjoin (imap (λ i c, placement c new_prefix (bool_decide (S i = length cs))) cs).
Proof.
  induction cs as [|c rest IH]; [done|].
  rewrite place_children_cons. cbn [imap mjoin list_join]. f_equal.
  - f_equal. destruct rest; [done|]. by rewrite bool_decide_false.
  - rewrite IH. f_equal. apply imap_ext. intros i x _. simpl.
    f_equal. apply bool_decide_ext. lia.
Qed.

(** C7, as the code has it. On a tree whose nodes, the leaves too, carry the
    keys conditional, parent_ok, constraint_category, scope, constraint and
    source, the printer raises nothing and prints one line per node, in
    depth-first pre-order; the line of a node is its indentation, its branch
    glyph and its annotation; and the child at index [i] of a node is drawn
    under the node's extended indentation with the glyph of a last child
    when [i] is the last index, and with the glyph of an earlier one
    otherwise. *)
Theorem printer_draws_complete_trees t prefix is_last :
  complete t →
  pretty_print_tree t prefix is_last =
    (map draw (placement t prefix is_last), None) ∧
  length (pretty_print_tree t prefix is_last).1 = node_count t ∧
  (placement t prefix is_last).*2 = preorder t ∧
  placement t prefix is_last =
    (prefix, is_last, t) ::
    mjoin (imap (λ i c, placement c (extend prefix is_last)
                          (bool_decide (S i = length (children_of t))))
                (children_of t)).
Proof.
  intros Hc. rewrite (printer_follows_placement t prefix is_last Hc).
  split; [done|]. split; [|split].
  - simpl. by rewrite length_map, placement_length.
  - apply placement_preorder.
  - destruct t as [fields children].
    by rewrite placement_node, place_children_indexed.
Qed.

Lemma printer_draws_complete_trees_witness :
  complete schema_tree ∧
  pretty_print_tree schema_tree "" true =
    (map draw (placement schema_tree "" true), None).
Proof.
  assert (complete schema_tree) as H.
  { unfold complete, has_printed_keys, printed_keys. simpl.
    repeat first [apply Forall_nil | apply Forall_cons; split | (eexists; reflexivity)]. }
  split; [exact H|].
  exact (proj1 (printer_draws_complete_trees schema_tree "" true H)).
Defined.

(** C7, as the spec words it, fails: on a tree in the exchange format,
    whose leaves omit source and scope, the printer prints the line of the
    root and stops at the first leaf with KeyError('scope'); the tree has
    three nodes and one line is printed. *)
Lemma printer_stops_at_a_bare_leaf :
  exchange_format bare_tree ∧
  node_count bare_tree = 3 ∧
  pretty_print_tree bare_tree "" true =
    ([draw ("", true, bare_tree)], Some (Exc "KeyError" "'scope'")).
Proof.
  split; [|split; reflexivity].
  unfold exchange_format. simpl.
  repeat first [apply Forall_nil | apply Forall_cons; split];
    try lazymatch goal with
    | |- exchange_node ?n =>
        unfold exchange_node;
        let b := eval vm_compute in (is_leaf n) in
        change (is_leaf n) with b; cbv iota
    end;
    unfold has_printed_keys, printed_keys; simpl;
    repeat first [ apply Forall_nil | apply Forall_cons; split
                 | (eexists; reflexivity) | reflexivity | split ].
Qed.

End Stage2Claims.

(* ===================================================================== *)
(** ** Properties of the oracle wrappers                                  *)
(* ===================================================================== *)

Section OracleClaims.

Variable create : string → string → string → PyExc + Response.
Variable json_loads : string → PyExc + Json.
Variable dumps_indent : Json → string.

(** A failed request makes the try block raise. *)
Lemma failed_request_raises model tool user access e :
  answer_fails create json_loads model tool user access e →
  (do! response := create model tool user in
   do! text := first_arguments response in
   do! args := json_loads text in access args) = inl e.
Proof.
  unfold bind_result.
  intros [e' H | r e' H1 H2 | r text e' H1 H2 H3 | r text args e' H1 H2 H3 H4].
  - by rewrite H.
  - by rewrite H1, H2.
  - by rewrite H1, H2, H3.
  - by rewrite H1, H2, H3.
Qed.

(** C8. When the request of a wrapper fails, in the call of the oracle or
    in the reading of its answer, the wrapper prints an error line and
    returns the empty result: the empty list for the extraction, the empty
    dict for the tree, the empty text for the validator source. *)
Theorem oracle_failures_yield_empty_results prompt model constraints tree e :
  (answer_fails create json_loads model "classify_constraints_from_prompt"
     ("Prompt template:" ++ nl ++ prompt)
     (λ args, json_get args "constraints" (JArr [])) e →
   classify_prompt_constraints create json_loads prompt model =
     (JArr [], ["[ERROR] Extraction failed: " ++ exc_msg e])) ∧
  (answer_fails create json_loads model "generate_constraint_check_tree"
     ("Prompt:" ++ nl ++ prompt ++ nl ++ nl ++ "Constraints:" ++ nl ++
      dumps_indent constraints)
     (λ args, json_subscript args "tree") e →
   generate_evaluation_tree create json_loads dumps_indent prompt constraints model =
     (JObj ∅, ["[ERROR] Evaluation tree generation failed: " ++ exc_msg e])) ∧
  (answer_fails create json_loads model "generate_output_checker_code"
     ("Prompt: " ++ prompt ++ nl ++ nl ++ "Evaluation Tree:" ++ nl ++
      dumps_indent tree)
     (λ args, json_subscript args "code") e →
   generate_checker_code create json_loads dumps_indent prompt tree model =
     (JAtom (SStr ""), ["[ERROR] GPT code generation failed: " ++ exc_msg e])).
Proof.
  unfold classify_prompt_constraints, generate_evaluation_tree, generate_checker_code,
    classify_body, tree_body, code_body.
  repeat split; intros H; by rewrite (failed_request_raises _ _ _ _ _ H).
Qed.

End OracleClaims.

Lemma oracle_failures_yield_empty_results_witness :
  answer_fails times_out loads_sample "gpt-4o" "classify_constraints_from_prompt"
    ("Prompt template:" ++ nl ++ "p")
    (λ args, json_get args "constraints" (JArr []))
    (Exc "APITimeoutError" "Request timed out.") ∧
  classify_prompt_constraints times_out loads_sample "p" "gpt-4o" =
    (JArr [], ["[ERROR] Extraction failed: Request timed out."]).
Proof.
  assert (answer_fails times_out loads_sample "gpt-4o" "classify_constraints_from_prompt"
            ("Prompt template:" ++ nl ++ "p")
            (λ args, json_get args "constraints" (JArr []))
            (Exc "APITimeoutError" "Request timed out.")) as H.
  { apply call_fails. reflexivity. }
  split; [exact H|].
  exact (proj1 (oracle_failures_yield_empty_results times_out loads_sample (λ _, "[]")
                  "p" "gpt-4o" (JArr []) (JObj ∅) _) H).
Defined.

(** The failures the spec names, and an answer without the field asked for
    by [get], which is no failure. *)
Example oracle_failure_modes :
  generate_checker_code answers_in_text loads_sample (λ _, "{}") "p" (JObj ∅) "gpt-4o" =
    (JAtom (SStr ""),
     ["[ERROR] GPT code generation failed: 'NoneType' object is not subscriptable"]) ∧
  generate_checker_code (answers_with "") loads_sample (λ _, "{}") "p" (JObj ∅) "gpt-4o" =
    (JAtom (SStr ""),
     ["[ERROR] GPT code generation failed: Expecting value: line 1 column 1 (char 0)"]) ∧
  generate_evaluation_tree (answers_with "{}") loads_sample (λ _, "[]") "p" (JArr [])
      "gpt-4o" =
    (JObj ∅, ["[ERROR] Evaluation tree generation failed: 'tree'"]) ∧
  classify_prompt_constraints (answers_with "{}") loads_sample "p" "gpt-4o" =
    (JArr [], []).
Proof. repeat split; reflexivity. Qed.

(* ===================================================================== *)
(** ** More on the harness and its command line                           *)
(* ===================================================================== *)

Import Cli.

Section HarnessMore.

Implicit Types (code : Source) (w : gmap string PyVal) (out : list string).

Lemma dumps_three_inv k1 k2 k3 v1 v2 v3 line :
  json_dumps_dict [(k1, v1); (k2, v2); (k3, v3)] = inr line →
  ∃ j1 j2 j3,
    json_dumps v1 = inr j1 ∧ json_dumps v2 = inr j2 ∧ json_dumps v3 = inr j3.
Proof.
  unfold json_dumps_dict, map_result, dumps_field. simpl.
  destruct (json_dumps v1) as [|j1]; [done|].
  destruct (json_dumps v2) as [|j2]; [done|].
  destruct (json_dumps v3) as [|j3]; [done|].
  intros _. by exists j1, j2, j3.
Qed.

(** What [report] does with a 3-tuple, by the truth value of its first
    element and by whether reason and violation can be serialised. *)
Lemma report_cases passed reason violation w :
  (truthy passed = true ∧
   report (VTuple [passed; reason; violation]) w =
     (Normal passed, w, [verdict_text "true" "null" "null"])) ∨
  (truthy passed = false ∧ ∃ jr jv,
     json_dumps reason = inr jr ∧ json_dumps violation = inr jv ∧
     report (VTuple [passed; reason; violation]) w =
       (Normal passed, w, [verdict_text "false" jr jv])) ∨
  (truthy passed = false ∧ ∃ e,
     json_dumps_dict (verdict_record false reason violation) = inl e ∧
     report (VTuple [passed; reason; violation]) w = (Raise e, w, [])).
Proof.
  destruct (truthy passed) eqn:Ht.
  - left. split; [done|]. by apply report_truthy.
  - right.
    destruct (json_dumps_dict (verdict_record false reason violation))
      as [e|line] eqn:Hd.
    + right. split; [done|]. exists e. split; [done|].
      unfold report. simpl. rewrite Ht. unfold emit, exec_bind. by rewrite Hd.
    + left. split; [done|].
      destruct (dumps_three_inv _ _ _ _ _ _ _ Hd) as (j1 & jr & jv & _ & Hr & Hv).
      exists jr, jv. split; [done|]. split; [done|]. by apply report_falsy.
Qed.

(** X1. Whenever the harness returns, it has printed exactly one line after
    what the validator printed: a verdict record, whose satisfied field is
    the truth value of the value returned, or an error line, and then the
    value returned is [False]. *)
Theorem harness_prints_one_line code i o w v w' out :
  run_generated_checker code i o w = (Normal v, w', out) →
  ∃ line, out = (validator_output code i o w ++ [line])%list ∧
    ((is_verdict_record line ∧
      ∃ jr jv, line = verdict_text (json_bool (truthy v)) jr jv) ∨
     (∃ e, line = error_line e ∧ v = VBool false)).
Proof.
  unfold run_generated_checker, try_except, checker_body, validator_output.
  unfold exec_bind at 1.
  destruct (code (module_dict "checker_module") w) as [[r w1] out1] eqn:Hload.
  destruct r as [ns|e|s|]; try done.
  - destruct (ns !! "is_valid_output") as [entry|] eqn:Hentry.
    + unfold exec_bind.
      destruct (call entry [VStr o; VStr i] w1) as [[r2 w2] out2] eqn:Hcall.
      destruct r2 as [result|e|s|]; try done; simpl.
      * destruct (decide (tuple_of_3 result)) as [Hshape|Hshape].
        -- destruct result as [ | | | | items | | ];
             try (by destruct Hshape).
           destruct items as [|passed [|reason [|violation [|]]]];
             try (by destruct Hshape as [_ ?]).
           destruct (report_cases passed reason violation w2)
             as [[Ht ->] | [(Ht & jr & jv & Hr & Hv & ->) | (Ht & e & He & ->)]].
           ++ intros [= <- <- <-]. eexists. rewrite app_assoc. split; [done|].
              left. rewrite Ht. split; [|by eexists _, _].
              exists (verdict_record true VNone VNone). split; [done|].
              by apply dumps_verdict_record.
           ++ intros [= <- <- <-]. eexists. rewrite app_assoc. split; [done|].
              left. rewrite Ht. split; [|by eexists _, _].
              exists (verdict_record false reason violation). split; [done|].
              by apply dumps_verdict_record.
           ++ intros [= <- <- <-]. eexists. rewrite app_nil_r. split; [done|].
              right. by exists e.
        -- rewrite (report_of_other_shape _ _ Hshape).
           intros [= <- <- <-]. eexists. rewrite app_nil_r. split; [done|].
           right. by eexists.
      * intros [= <- <- <-]. eexists. split; [done|]. right. by eexists.
    + simpl. intros [= <- <- <-]. eexists. rewrite app_nil_r. split; [done|].
      right. by eexists.
  - intros [= <- <- <-]. eexists. split; [done|]. right. by eexists.
Qed.

Lemma harness_prints_one_line_witness :
  run_generated_checker too_short "in" "out" ∅ =
    (Normal (VBool false), ∅,
     [verdict_text "false" (encode_basestring "too short")
        (encode_basestring "output must exceed 10 words")]) ∧
  ∃ line,
    [verdict_text "false" (encode_basestring "too short")
       (encode_basestring "output must exceed 10 words")] =
      (validator_output too_short "in" "out" ∅ ++ [line])%list ∧
    ((is_verdict_record line ∧
      ∃ jr jv, line = verdict_text (json_bool (truthy (VBool false))) jr jv) ∨
     (∃ e, line = error_line e ∧ VBool false = VBool false)).
Proof.
  assert (run_generated_checker too_short "in" "out" ∅ =
            (Normal (VBool false), ∅,
             [verdict_text "false" (encode_basestring "too short")
                (encode_basestring "output must exceed 10 words")])) as H
    by reflexivity.
  split; [exact H|].
  exact (harness_prints_one_line too_short "in" "out" ∅ _ _ _ H).
Defined.

(** X2. The first element of the returned tuple is judged by its truth
    value, whatever its type, and is returned as it is: when it is truthy
    the satisfied record is printed, when it is falsy and reason and
    violation can be serialised the unsatisfied record is printed with
    them. *)
Theorem verdict_goes_by_truth_value code i o w passed reason violation w' out :
  entry_returns code i o w (VTuple [passed; reason; violation]) w' out →
  (truthy passed = true →
     run_generated_checker code i o w =
       (Normal passed, w', (out ++ [verdict_text "true" "null" "null"])%list)) ∧
  (truthy passed = false → ∀ jr jv,
     json_dumps reason = inr jr → json_dumps violation = inr jv →
     run_generated_checker code i o w =
       (Normal passed, w', (out ++ [verdict_text "false" jr jv])%list)).
Proof.
  intros Hret. split.
  - intros Ht. eapply run_after_return; [exact Hret|]. by apply report_truthy.
  - intros Ht jr jv Hr Hv. eapply run_after_return; [exact Hret|].
    by apply report_falsy.
Qed.

Lemma verdict_goes_by_truth_value_witness :
  entry_returns returns_one "in" "out" ∅
    (VTuple [VInt 1; VStr "ignored"; VNone]) ∅ [] ∧
  run_generated_checker returns_one "in" "out" ∅ =
    (Normal (VInt 1), ∅, [verdict_text "true" "null" "null"]).
Proof.
  assert (entry_returns returns_one "in" "out" ∅
            (VTuple [VInt 1; VStr "ignored"; VNone]) ∅ []) as H.
  { eexists _, _, _, _, _. repeat split; reflexivity. }
  split; [exact H|].
  exact (proj1 (verdict_goes_by_truth_value returns_one "in" "out" ∅ _ _ _ ∅ [] H)
               eq_refl).
Defined.

(** X3. When the first element is falsy and the reason or the violation is
    an object [json.dumps] refuses, no verdict is printed: the [TypeError]
    of [json.dumps] is reported in an error line and [False] is returned. *)
Theorem unserialisable_verdict_is_an_error code i o w passed reason violation w' out e :
  entry_returns code i o w (VTuple [passed; reason; violation]) w' out →
  truthy passed = false →
  json_dumps_dict (verdict_record false reason violation) = inl e →
  run_generated_checker code i o w =
    (Normal (VBool false), w', (out ++ [error_line e])%list) ∧
  exc_class e = "TypeError" ∧
  ¬ is_verdict_record (error_line e).
Proof.
  intros Hret Ht He. split; [|split; [|apply error_line_is_no_record]].
  - apply run_of_raise. rewrite (body_after_return _ _ _ _ _ _ _ Hret).
    destruct (report_cases passed reason violation w')
      as [[Ht' _] | [(_ & jr & jv & Hr & Hv & _) | (_ & e' & He' & ->)]].
    + congruence.
    + by rewrite (dumps_verdict_record false _ _ _ _ Hr Hv) in He.
    + rewrite app_nil_r. congruence.
  - unfold json_dumps_dict in He.
    destruct (map_result dumps_field (verdict_record false reason violation))
      eqn:Hm; simpl in He; [|done].
    injection He as <-.
    eapply (map_result_raises dumps_field (λ e, exc_class e = "TypeError"));
      [|exact Hm].
    apply Forall_forall. intros [k v] _ e' He'. unfold dumps_field in He'. simpl in He'.
    destruct (json_dumps v) eqn:Hv; simpl in He'; [|done].
    injection He' as <-. by eapply json_dumps_raises_type_error.
Qed.

Lemma unserialisable_verdict_is_an_error_witness :
  entry_returns returns_a_set "in" "out" ∅
    (VTuple [VBool false; VObj "set" true; VNone]) ∅ [] ∧
  run_generated_checker returns_a_set "in" "out" ∅ =
    (Normal (VBool false), ∅,
     [error_line (Exc "TypeError" "Object of type set is not JSON serializable")]).
Proof.
  assert (entry_returns returns_a_set "in" "out" ∅
            (VTuple [VBool false; VObj "set" true; VNone]) ∅ []) as H.
  { eexists _, _, _, _, _. repeat split; reflexivity. }
  split; [exact H|].
  exact (proj1 (unserialisable_verdict_is_an_error returns_a_set "in" "out" ∅
                  _ _ _ ∅ [] _ H eq_refl eq_refl)).
Defined.



Lemma main_after_run python files path text i o w v w' out :
  files !! path = Some text →
  run_generated_checker (python text) i o w = (Normal v, w', out) →
  main python files path i o w =
    (Normal tt, w', (banner :: out ++ [final_line v])%list).
Proof.
  intros Hfile Hrun. unfold main, exec_bind, lift_result, read_file.
  rewrite Hfile. simpl. by rewrite Hrun.
Qed.



Lemma free_of_c0_app a b : free_of_c0 (a ++ b) = free_of_c0 a && free_of_c0 b.
Proof.
  induction a as [|c a IH]; [done|].
  change (free_of_c0 (String c a ++ b)) with
    ((32 <=? Ascii.nat_of_ascii c)%nat && free_of_c0 (a ++ b)).
  rewrite IH. simpl. by rewrite andb_assoc.
Qed.

Lemma escape_char_free_of_c0 c : free_of_c0 (escape_char c) = true.
Proof. destruct c as [[] [] [] [] [] [] [] []]; vm_compute; reflexivity. Qed.

Lemma encode_basestring_free_of_c0 s : free_of_c0 (encode_basestring s) = true.
Proof.
  unfold encode_basestring. rewrite !free_of_c0_app.
  assert (free_of_c0 (escape_chars s) = true) as ->; [|done].
  induction s as [|c s IH]; [done|].
  change (escape_chars (String c s)) with (escape_char c ++ escape_chars s).
  by rewrite free_of_c0_app, escape_char_free_of_c0, IH.
Qed.

Lemma escape_char_plain c : plain_char c = true → escape_char c = String c "".
Proof.
  destruct c as [[] [] [] [] [] [] [] []]; vm_compute; intros H;
    first [reflexivity | discriminate H].
Qed.

Lemma escape_chars_plain s : plain s = true → escape_chars s = s.
Proof.
  induction s as [|c s IH]; [done|].
  cbn [plain]. intros [Hc Hs]%andb_prop.
  change (escape_chars (String c s)) with (escape_char c ++ escape_chars s).
  by rewrite (escape_char_plain c Hc), (IH Hs).
Qed.

Lemma json_opt_text_plain t : plain_opt t = true → json_opt_text t = unescaped t.
Proof.
  destruct t as [s|]; [|done]. cbn [plain_opt json_opt_text unescaped].
  intros H. unfold encode_basestring. by rewrite (escape_chars_plain s H).
Qed.

(** X24. What [json.dumps] escapes in a verdict record: when the entry point
    returns a tuple of a boolean and two optional texts, the record printed
    holds no byte below 0x20, so none of the control characters U+0000 to
    U+001F (line feed, carriage return, tab, ...), whatever the reason and
    the violation hold. Nothing else is escaped but the quote and the
    backslash: a reason and a violation made of the other bytes from 0x20 up
    (DEL and the UTF-8 bytes of U+0085, U+2028 and U+2029 among them) stand
    in the record of a failed check as they are, between quotes. *)
Theorem verdict_record_escapes_c0_only code i o w passed reason violation w' out :
  entry_returns code i o w
    (VTuple [VBool passed; opt_text reason; opt_text violation]) w' out →
  ∃ line,
    run_generated_checker code i o w =
      (Normal (VBool passed), w', (out ++ [line])%list) ∧
    free_of_c0 line = true ∧
    (passed = false → plain_opt reason = true → plain_opt violation = true →
     line = verdict_text "false" (unescaped reason) (unescaped violation)).
Proof.
  intros Hret.
  assert (∀ t, free_of_c0 (json_opt_text t) = true) as Hopt.
  { intros [s|]; [apply encode_basestring_free_of_c0 | done]. }
  destruct passed.
  - exists (verdict_text "true" "null" "null"). split; [|done].
    eapply run_after_return; [exact Hret|]. by apply report_truthy.
  - exists (verdict_text "false" (json_opt_text reason) (json_opt_text violation)).
    split; [|split].
    + eapply run_after_return; [exact Hret|].
      apply report_falsy; [done | apply json_dumps_opt_text ..].
    + unfold verdict_text. rewrite !free_of_c0_app, !Hopt. reflexivity.
    + intros _ Hr Hv.
      by rewrite (json_opt_text_plain _ Hr), (json_opt_text_plain _ Hv).
Qed.

Lemma verdict_record_escapes_c0_only_witness :
  entry_returns keeps_del "in" "out" ∅
    (VTuple [VBool false; opt_text (Some ("a" ++ del ++ "b")); opt_text None]) ∅ [] ∧
  ∃ line,
    run_generated_checker keeps_del "in" "out" ∅ =
      (Normal (VBool false), ∅, ([] ++ [line])%list) ∧
    free_of_c0 line = true ∧
    line = verdict_text "false" (dquote ++ "a" ++ del ++ "b" ++ dquote) "null".
Proof.
  assert (entry_returns keeps_del "in" "out" ∅
            (VTuple [VBool false; opt_text (Some ("a" ++ del ++ "b")); opt_text None])
            ∅ []) as H.
  { eexists _, _, _, _, _. repeat split; reflexivity. }
  split; [exact H|].
  destruct (verdict_record_escapes_c0_only keeps_del "in" "out" ∅ false
              (Some ("a" ++ del ++ "b")) None ∅ [] H) as (line & Hrun & Hfree & Hraw).
  exists line. split; [exact Hrun|]. split; [exact Hfree|].
  exact (Hraw eq_refl eq_refl eq_refl).
Defined.

End HarnessMore.

(* ===================================================================== *)
(** ** More on stage 1                                                    *)
(* ===================================================================== *)

Import Assess.

Section AssessFacts.

Variable create : string → string → string → PyExc + Response.
Variable json_loads : string → PyExc + Json.
Variable dumps_payload : Json → string.

(** X6. The assessment fails closed: when the request fails, in the call
    of the oracle or in the reading of its answer (an answer that is not a
    dict included), the constraint is assessed as not verifiable and one
    error line is printed. *)
Theorem assessment_fails_closed constraint_text source_text prompt_text model printed e :
  answer_fails create json_loads model "assess_single_conditional_condition"
    (dumps_payload (user_payload prompt_text constraint_text source_text))
    read_verdict e →
  assess_single_conditional_bool create json_loads dumps_payload
    constraint_text source_text prompt_text model printed =
    (false, (printed ++ [assessment_error e])%list).
Proof.
  intros H. unfold assess_single_conditional_bool, assess_body, bind_result.
  destruct H as [e' H | r e' H1 H2 | r text e' H1 H2 H3 | r text args e' H1 H2 H3 H4].
  - by rewrite H.
  - by rewrite H1, H2.
  - by rewrite H1, H2, H3.
  - by rewrite H1, H2, H3, H4.
Qed.

(** X7. A constraint is assessed as verifiable exactly when the oracle
    answers with a tool call whose arguments parse to a dict in which
    condition_verifiable is truthy: [True], but also a non-empty string (the
    text "false" included), a non-zero number, a non-empty list or dict. A
    missing field counts as [False]. Nothing is printed then. *)
Theorem assessment_goes_by_truth_value constraint_text source_text prompt_text model printed :
  (assess_single_conditional_bool create json_loads dumps_payload
     constraint_text source_text prompt_text model printed).1 = true ↔
  ∃ resp text members,
    create model "assess_single_conditional_condition"
      (dumps_payload (user_payload prompt_text constraint_text source_text)) = inr resp ∧
    first_arguments resp = inr text ∧
    json_loads text = inr (JObj members) ∧
    json_truthy (default (JAtom (SBool false)) (members !! "condition_verifiable")) = true.
Proof.
  unfold assess_single_conditional_bool, assess_body, bind_result, read_verdict.
  destruct (create _ _ _) as [e|resp] eqn:Hc; simpl.
  { split; [done | by intros (? & ? & ? & [=] & _)]. }
  destruct (first_arguments resp) as [e|text] eqn:Hf; simpl.
  { split; [done|]. intros (? & ? & ? & [= <-] & Hf' & _). congruence. }
  destruct (json_loads text) as [e|args] eqn:Hargs; simpl.
  { split; [done|]. intros (? & ? & ? & [= <-] & Hf' & Hl & _). congruence. }
  destruct args as [v|items|members]; simpl.
  - split; [done|]. intros (? & ? & ? & [= <-] & Hf' & Hl & _). congruence.
  - split; [done|]. intros (? & ? & ? & [= <-] & Hf' & Hl & _). congruence.
  - split.
    + intros Ht. by exists resp, text, members.
    + intros (? & ? & ? & [= <-] & Hf' & Hl & Ht). congruence.
Qed.

End AssessFacts.

Lemma assessment_fails_closed_witness :
  answer_fails times_out loads_sample "gpt-4o" "assess_single_conditional_condition"
    ((λ _, "{}") (user_payload "p" (SStr "c") (SStr "s")))
    read_verdict (Exc "APITimeoutError" "Request timed out.") ∧
  assess_single_conditional_bool times_out loads_sample (λ _, "{}")
    (SStr "c") (SStr "s") "p" "gpt-4o" [] =
    (false, ["[ERROR] Condition verifiability assessment failed: Request timed out."]).
Proof.
  assert (answer_fails times_out loads_sample "gpt-4o" "assess_single_conditional_condition"
            ((λ _, "{}") (user_payload "p" (SStr "c") (SStr "s")))
            read_verdict (Exc "APITimeoutError" "Request timed out.")) as H.
  { apply call_fails. reflexivity. }
  split; [exact H|].
  exact (assessment_fails_closed times_out loads_sample (λ _, "{}")
           (SStr "c") (SStr "s") "p" "gpt-4o" [] _ H).
Defined.


Lemma assessment_goes_by_truth_value_witness :
  (assess_single_conditional_bool (answers_with "x") loads_false_as_text (λ _, "{}")
     (SStr "c") (SStr "s") "p" "gpt-4o" []).1 = true.
Proof.
  apply (proj2 (assessment_goes_by_truth_value (answers_with "x") loads_false_as_text
                  (λ _, "{}") (SStr "c") (SStr "s") "p" "gpt-4o" [])).
  eexists _, _, _. repeat split; reflexivity.
Defined.

Section LoopFacts.

Context {OracleState : Type}.
Variable assess : Scalar → Scalar → string → string → OracleState → bool * OracleState.

Implicit Types (c : gmap string Scalar) (l kept : list (gmap string Scalar)).

Lemma keep_step_eq prompt model acc st a :
  keep_step assess prompt model (acc, st) a =
    if is_unconditional a then ((acc ++ [a])%list, st)
    else if is_conditional a then
      let '(ok, st') := asked assess prompt model st a in
      if ok then ((acc ++ [a])%list, st') else (acc, st')
    else (acc, st).
Proof. reflexivity. Qed.

Lemma unconditional_is_not_conditional c :
  is_unconditional c = true → is_conditional c = false.
Proof.
  unfold is_unconditional, is_conditional.
  destruct (dict_get c "application_type" SNull) as [ | b | n | s]; simpl; try done.
  intros ->%String.eqb_eq. reflexivity.
Qed.

Lemma loop_final_state prompt model l st :
  (filter_code_verifiable_conditionals assess l prompt model st).2 =
    fold_left (λ s c, (asked assess prompt model s c).2)
              (filter (λ c, is_conditional c) l) st.
Proof.
  unfold filter_code_verifiable_conditionals. generalize (@nil (gmap string Scalar)).
  revert st. induction l as [|a l IH]; intros st acc; [done|].
  cbn [fold_left]. rewrite keep_step_eq, filter_cons.
  destruct (is_unconditional a) eqn:Hu.
  - rewrite (unconditional_is_not_conditional a Hu). simpl. apply IH.
  - destruct (is_conditional a) eqn:Hc; simpl; [|apply IH].
    destruct (asked assess prompt model st a) as [[] st'] eqn:Ha; simpl; apply IH.
Qed.

Lemma loop_kept_records (verdict : Scalar → Scalar → string → string → bool)
    prompt model l st :
  (∀ a b p m s, (assess a b p m s).1 = verdict a b p m) →
  (filter_code_verifiable_conditionals assess l prompt model st).1 =
    filter (λ c, is_unconditional c ||
                 is_conditional c &&
                 verdict (dict_get c "constraint" (SStr ""))
                         (dict_get c "source" (SStr "")) prompt model) l.
Proof.
  intros Hv. unfold filter_code_verifiable_conditionals.
  rewrite <- (app_nil_l (filter _ l)). generalize (@nil (gmap string Scalar)).
  revert st. induction l as [|a l IH]; intros st acc.
  { simpl. by rewrite app_nil_r. }
  cbn [fold_left]. rewrite keep_step_eq, filter_cons.
  destruct (is_unconditional a) eqn:Hu; simpl.
  - rewrite IH. by rewrite <- app_assoc.
  - destruct (is_conditional a) eqn:Hc; simpl; [|apply IH].
    pose proof (Hv (dict_get a "constraint" (SStr "")) (dict_get a "source" (SStr ""))
                   prompt model st) as Hd.
    unfold asked. destruct (assess _ _ prompt model st) as [ok st'].
    simpl in Hd. rewrite <- Hd. destruct ok; simpl.
    + rewrite IH. by rewrite <- app_assoc.
    + apply IH.
Qed.

(** X8. The oracle is asked once for each record whose application_type is
    "conditional", in the order of the list, and for no other record: the
    state the loop leaves is the one these requests leave, one after the
    other. *)
Theorem oracle_is_asked_for_conditionals_only prompt model l st :
  (filter_code_verifiable_conditionals assess l prompt model st).2 =
    fold_left (λ s c, (asked assess prompt model s c).2)
              (filter (λ c, is_conditional c) l) st.
Proof. apply loop_final_state. Qed.

(** X9. When the answer of the oracle to a request does not depend on the
    requests made before, the loop is a filter: a record is kept exactly
    when it is unconditional, or conditional and assessed as verifiable. *)
Theorem loop_is_a_filter (verdict : Scalar → Scalar → string → string → bool)
    prompt model l st :
  (∀ a b p m s, (assess a b p m s).1 = verdict a b p m) →
  (filter_code_verifiable_conditionals assess l prompt model st).1 =
    filter (λ c, is_unconditional c ||
                 is_conditional c &&
                 verdict (dict_get c "constraint" (SStr ""))
                         (dict_get c "source" (SStr "")) prompt model) l.
Proof. apply loop_kept_records. Qed.

End LoopFacts.

Lemma loop_is_a_filter_witness :
  (∀ a b p m s, (never_verifiable a b p m s).1 = false) ∧
  (filter_code_verifiable_conditionals never_verifiable stage1_sample "p" "gpt-4o" tt).1 =
    filter (λ c, is_unconditional c || is_conditional c && false) stage1_sample.
Proof.
  assert (∀ a b p m s, (never_verifiable a b p m s).1 = false) as H
    by (intros; reflexivity).
  split; [exact H|].
  exact (loop_is_a_filter never_verifiable (λ _ _ _ _, false) "p" "gpt-4o"
           stage1_sample tt H).
Defined.

Section DeadOracle.

Variable create : string → string → string → PyExc + Response.
Variable json_loads : string → PyExc + Json.
Variable dumps_payload : Json → string.

(** X10. With an oracle that fails on every request, stage 1 keeps exactly
    the unconditional code-verifiable records, in their order, and prints
    one error line for each conditional code-verifiable record. *)
Theorem unreachable_oracle_keeps_unconditionals raw prompt model printed e :
  (∀ m tool user, create m tool user = inl e) →
  stage1_filters (assess_single_conditional_bool create json_loads dumps_payload)
    raw prompt model printed =
    (filter (λ c, is_unconditional c) (filter (λ c, code_verifiable c) raw),
     (printed ++
      replicate (length (filter (λ c, is_conditional c)
                                (filter (λ c, code_verifiable c) raw)))
                (assessment_error e))%list).
Proof.
  intros Hdead.
  assert (Hass : ∀ a b p m s,
            assess_single_conditional_bool create json_loads dumps_payload a b p m s =
              (false, (s ++ [assessment_error e])%list)).
  { intros. unfold assess_single_conditional_bool, assess_body, bind_result.
    by rewrite Hdead. }
  unfold stage1_filters, filter_code_verifiable_constraints.
  set (l := filter (λ c, code_verifiable c) raw).
  apply injective_projections.
  - rewrite (loop_kept_records _ (λ _ _ _ _, false)).
    + simpl. apply list_filter_iff. intros c.
      rewrite andb_false_r, orb_false_r. done.
    + intros. by rewrite Hass.
  - rewrite loop_final_state. simpl.
    generalize (filter (λ c, is_conditional c) l). intros cs. revert printed.
    induction cs as [|c cs IH]; intros printed; simpl.
    + by rewrite app_nil_r.
    + unfold asked at 2. rewrite Hass. simpl. rewrite IH.
      by rewrite <- app_assoc.
Qed.

End DeadOracle.

Lemma unreachable_oracle_keeps_unconditionals_witness :
  (∀ m tool user, times_out m tool user = inl (Exc "APITimeoutError" "Request timed out.")) ∧
  stage1_filters (assess_single_conditional_bool times_out loads_sample (λ _, "{}"))
    stage1_sample "p" "gpt-4o" [] =
    ([stage1_sample_kept],
     ["[ERROR] Condition verifiability assessment failed: Request timed out."]).
Proof.
  assert (∀ m tool user,
            times_out m tool user = inl (Exc "APITimeoutError" "Request timed out."))
    as H by (intros; reflexivity).
  split; [exact H|].
  exact (unreachable_oracle_keeps_unconditionals times_out loads_sample (λ _, "{}")
           stage1_sample "p" "gpt-4o" [] _ H).
Defined.

(* ===================================================================== *)
(** ** More on the oracle wrappers                                        *)
(* ===================================================================== *)

Section WrapperFacts.

Variable create : string → string → string → PyExc + Response.
Variable json_loads : string → PyExc + Json.
Variable dumps_indent : Json → string.

(** A request either fails in one of the four ways, or it goes through to
    the parsed arguments and to what [access] reads in them. *)
Lemma request_outcomes model tool user (access : Json → PyExc + Json) :
  (∃ e, answer_fails create json_loads model tool user access e ∧
        (do! response := create model tool user in
         do! text := first_arguments response in
         do! args := json_loads text in access args) = inl e) ∨
  (∃ response text args v,
     create model tool user = inr response ∧
     first_arguments response = inr text ∧
     json_loads text = inr args ∧
     access args = inr v ∧
     (do! response := create model tool user in
      do! text := first_arguments response in
      do! args := json_loads text in access args) = inr v).
Proof.
  unfold bind_result.
  destruct (create model tool user) as [e|response] eqn:Hc.
  { left. exists e. split; [by apply call_fails | done]. }
  destruct (first_arguments response) as [e|text] eqn:Hf.
  { left. exists e. split; [by eapply no_tool_call | done]. }
  destruct (json_loads text) as [e|args] eqn:Hl.
  { left. exists e. split; [by eapply not_json | done]. }
  destruct (access args) as [e|v] eqn:Ha.
  { left. exists e. split; [by eapply no_field | done]. }
  right. by exists response, text, args, v.
Qed.

(** X11. Each wrapper either meets one of the four failures, returns the
    empty result and prints one error line, or returns what the oracle sent
    under the field it reads, unchanged, and prints nothing. For the
    extraction an answer without the field constraints is no failure: the
    empty list is returned and nothing is printed. For the tree and for
    the validator source the field must be there. *)
Theorem wrappers_fail_or_pass_on prompt model constraints tree :
  ((∃ e, answer_fails create json_loads model "classify_constraints_from_prompt"
           ("Prompt template:" ++ nl ++ prompt)
           (λ args, json_get args "constraints" (JArr [])) e ∧
         classify_prompt_constraints create json_loads prompt model =
           (JArr [], ["[ERROR] Extraction failed: " ++ exc_msg e])) ∨
   (∃ response text members,
      create model "classify_constraints_from_prompt"
        ("Prompt template:" ++ nl ++ prompt) = inr response ∧
      first_arguments response = inr text ∧
      json_loads text = inr (JObj members) ∧
      classify_prompt_constraints create json_loads prompt model =
        (default (JArr []) (members !! "constraints"), []))) ∧
  ((∃ e, answer_fails create json_loads model "generate_constraint_check_tree"
           ("Prompt:" ++ nl ++ prompt ++ nl ++ nl ++ "Constraints:" ++ nl ++
            dumps_indent constraints)
           (λ args, json_subscript args "tree") e ∧
         generate_evaluation_tree create json_loads dumps_indent prompt constraints model =
           (JObj ∅, ["[ERROR] Evaluation tree generation failed: " ++ exc_msg e])) ∨
   (∃ response text members v,
      create model "generate_constraint_check_tree"
        ("Prompt:" ++ nl ++ prompt ++ nl ++ nl ++ "Constraints:" ++ nl ++
         dumps_indent constraints) = inr response ∧
      first_arguments response = inr text ∧
      json_loads text = inr (JObj members) ∧
      members !! "tree" = Some v ∧
      generate_evaluation_tree create json_loads dumps_indent prompt constraints model =
        (v, []))) ∧
  ((∃ e, answer_fails create json_loads model "generate_output_checker_code"
           ("Prompt: " ++ prompt ++ nl ++ nl ++ "Evaluation Tree:" ++ nl ++
            dumps_indent tree)
           (λ args, json_subscript args "code") e ∧
         generate_checker_code create json_loads dumps_indent prompt tree model =
           (JAtom (SStr ""), ["[ERROR] GPT code generation failed: " ++ exc_msg e])) ∨
   (∃ response text members v,
      create model "generate_output_checker_code"
        ("Prompt: " ++ prompt ++ nl ++ nl ++ "Evaluation Tree:" ++ nl ++
         dumps_indent tree) = inr response ∧
      first_arguments response = inr text ∧
      json_loads text = inr (JObj members) ∧
      members !! "code" = Some v ∧
      generate_checker_code create json_loads dumps_indent prompt tree model =
        (v, []))).
Proof.
  unfold classify_prompt_constraints, generate_evaluation_tree, generate_checker_code,
    classify_body, tree_body, code_body.
  split; [|split].
  - destruct (request_outcomes model "classify_constraints_from_prompt"
                ("Prompt template:" ++ nl ++ prompt)
                (λ args, json_get args "constraints" (JArr [])))
      as [(e & Hf & ->) | (response & text & args & v & Hc & Hf & Hl & Ha & ->)].
    + left. by exists e.
    + right. destruct args as [s|items|members]; try done.
      injection Ha as <-. by exists response, text, members.
  - destruct (request_outcomes model "generate_constraint_check_tree"
                ("Prompt:" ++ nl ++ prompt ++ nl ++ nl ++ "Constraints:" ++ nl ++
                 dumps_indent constraints)
                (λ args, json_subscript args "tree"))
      as [(e & Hf & ->) | (response & text & args & v & Hc & Hf & Hl & Ha & ->)].
    + left. by exists e.
    + right. destruct args as [[]|items|members]; try done.
      simpl in Ha. destruct (members !! "tree") as [v'|] eqn:Hm; [|done].
      injection Ha as <-. by exists response, text, members, v'.
  - destruct (request_outcomes model "generate_output_checker_code"
                ("Prompt: " ++ prompt ++ nl ++ nl ++ "Evaluation Tree:" ++ nl ++
                 dumps_indent tree)
                (λ args, json_subscript args "code"))
      as [(e & Hf & ->) | (response & text & args & v & Hc & Hf & Hl & Ha & ->)].
    + left. by exists e.
    + right. destruct args as [[]|items|members]; try done.
      simpl in Ha. destruct (members !! "code") as [v'|] eqn:Hm; [|done].
      injection Ha as <-. by exists response, text, members, v'.
Qed.

End WrapperFacts.

(* ===================================================================== *)
(** ** More on the tree printer                                           *)
(* ===================================================================== *)

Import Stage2Any.

Section PrinterFacts.

Lemma missing_key_exists n : has_keys n = false → is_Some (first_missing_key n).
Proof.
  unfold has_keys, first_missing_key. generalize printed_keys. intros ks.
  induction ks as [|k ks IH]; simpl; [done|].
  destruct (bool_decide (is_Some (fields_of n !! k))); simpl; [apply IH | by eexists].
Qed.

Lemma no_missing_key n : has_keys n = true → first_missing_key n = None.
Proof.
  unfold has_keys, first_missing_key. generalize printed_keys. intros ks.
  induction ks as [|k ks IH]; simpl; [done|].
  destruct (bool_decide (is_Some (fields_of n !! k))); simpl; [apply IH | done].
Qed.

Lemma has_keys_spec n : has_keys n = true ↔ has_printed_keys n.
Proof.
  unfold has_keys, has_printed_keys. rewrite forallb_forall, Forall_forall.
  split; intros H k Hk.
  - apply (bool_decide_eq_true _). apply H. by apply list_elem_of_In.
  - apply bool_decide_eq_true. apply H. by apply list_elem_of_In.
Qed.

(** The line of a node, or the [KeyError] of its first missing key. *)
Lemma format_line_any fields children prefix is_last :
  format_line fields prefix is_last =
    match first_missing_key (MkNode fields children) with
    | Some k => inl (key_error k)
    | None => inr (draw (prefix, is_last, MkNode fields children))
    end.
Proof.
  unfold first_missing_key, printed_keys, format_line, subscript, bind_result,
    draw, annotation, dict_get. simpl.
  destruct (fields !! "conditional") as [v1|]; simpl; [|done].
  destruct (fields !! "parent_ok") as [v2|]; simpl; [|done].
  destruct (fields !! "constraint_category") as [v3|]; simpl; [|done].
  destruct (fields !! "scope") as [v4|]; simpl; [|done].
  destruct (fields !! "constraint") as [v5|]; simpl; [|done].
  destruct (fields !! "source") as [v6|]; simpl; [|done].
  reflexivity.
Qed.

Lemma stops_with_app a b :
  stops_with (a ++ b) =
    match stops_with a with Some e => Some e | None => stops_with b end.
Proof.
  unfold stops_with. induction a as [|n a IH]; [done|]. simpl.
  destruct (has_keys n) eqn:Hn; simpl; [apply IH|].
  by destruct (missing_key_exists n Hn) as [k ->].
Qed.

Lemma stops_with_none nodes :
  stops_with nodes = None ↔ forallb has_keys nodes = true.
Proof.
  unfold stops_with. induction nodes as [|n nodes IH]; [done|]. simpl.
  destruct (has_keys n) eqn:Hn; simpl; [apply IH|].
  by destruct (missing_key_exists n Hn) as [k ->].
Qed.

Lemma drawable_app a b :
  drawable (a ++ b) =
    if forallb has_keys a.*2 then (a ++ drawable b)%list else drawable a.
Proof.
  induction a as [|p a IH]; [done|].
  rewrite fmap_cons. cbn [app drawable forallb].
  destruct (has_keys p.2); cbn [andb]; [|done]. rewrite IH.
  by destruct (forallb has_keys a.*2).
Qed.

Lemma drawable_all ps : forallb has_keys ps.*2 = true → drawable ps = ps.
Proof.
  induction ps as [|p ps IH]; [done|].
  rewrite fmap_cons. cbn [forallb drawable].
  destruct (has_keys p.2); cbn [andb]; [|done]. intros H. by rewrite IH.
Qed.

Lemma print_children_cons np c rest :
  print_children np (c :: rest) =
    match pretty_print_tree c np (match rest with [] => true | _ => false end) with
    | (ls, Some e) => (ls, Some e)
    | (ls, None) =>
        match print_children np rest with (ls', r) => ((ls ++ ls')%list, r) end
    end.
Proof. reflexivity. Qed.

Lemma printer_on_any_tree t :
  ∀ prefix is_last,
    pretty_print_tree t prefix is_last =
      (map draw (drawable (placement t prefix is_last)), stops_with (preorder t)).
Proof.
  induction t as [fields children IH] using Node_rect_children.
  intros prefix is_last.
  rewrite pretty_print_tree_node, placement_node.
  rewrite (format_line_any fields children).
  change (preorder (MkNode fields children))
    with (MkNode fields children :: flat_map preorder children).
  unfold stops_with at 1. cbn [List.find drawable snd].
  destruct (has_keys (MkNode fields children)) eqn:Hk; cbn [negb].
  2:{ destruct (missing_key_exists _ Hk) as [k Hm]. by rewrite Hm. }
  rewrite (no_missing_key _ Hk). clear Hk.
  assert (print_children (extend prefix is_last) children =
          (map draw (drawable (place_children (extend prefix is_last) children)),
           stops_with (flat_map preorder children))) as ->; [|done].
  generalize (extend prefix is_last). intros np.
  induction IH as [|c cs IHc _ IHcs]; [reflexivity|].
  rewrite print_children_cons, place_children_cons, IHc, IHcs.
  cbn [flat_map]. rewrite stops_with_app, drawable_app, placement_preorder.
  destruct (stops_with (preorder c)) as [e|] eqn:Hs.
  - assert (forallb has_keys (preorder c) = false) as ->; [|done].
    destruct (forallb has_keys (preorder c)) eqn:Hf; [|done].
    apply stops_with_none in Hf. congruence.
  - apply stops_with_none in Hs. rewrite Hs.
    rewrite (drawable_all (placement c np _)); [by rewrite map_app|].
    by rewrite placement_preorder.
Qed.

Lemma printer_ends_normally_iff_complete t prefix is_last :
  (pretty_print_tree t prefix is_last).2 = None ↔ complete t.
Proof.
  rewrite printer_on_any_tree. simpl. rewrite stops_with_none. unfold complete.
  rewrite forallb_forall, Forall_forall.
  split; intros H n Hn.
  - apply has_keys_spec, H. by apply list_elem_of_In.
  - apply has_keys_spec, H. by apply list_elem_of_In.
Qed.

(** X12. On any tree the printer prints the lines of the nodes that come,
    in depth-first pre-order, before the first node that lacks one of the
    six keys, and stops there with the [KeyError] of the first key that
    node lacks, in the order conditional, parent_ok, constraint_category,
    scope, constraint, source; it raises nothing exactly when every node has
    the six keys. *)
Theorem printer_stops_at_first_incomplete_node t prefix is_last :
  (pretty_print_tree t prefix is_last).1 =
    map draw (drawable (placement t prefix is_last)) ∧
  (pretty_print_tree t prefix is_last).2 =
    match List.find (λ n, negb (has_keys n)) (preorder t) with
    | Some n => option_map key_error (first_missing_key n)
    | None => None
    end ∧
  ((pretty_print_tree t prefix is_last).2 = None ↔ complete t).
Proof.
  split; [|split; [|apply printer_ends_normally_iff_complete]];
    by rewrite printer_on_any_tree.
Qed.

Lemma printer_stops_at_first_incomplete_node_witness :
  complete schema_tree ∧ (pretty_print_tree schema_tree "" true).2 = None.
Proof.
  assert (complete schema_tree) as H.
  { unfold complete, has_printed_keys, printed_keys. simpl.
    repeat first [apply Forall_nil | apply Forall_cons; split | (eexists; reflexivity)]. }
  split; [exact H|].
  exact (proj2 (proj2 (proj2 (printer_stops_at_first_incomplete_node schema_tree "" true)))
               H).
Defined.

Lemma append_nil_r (s : string) : s ++ "" = s.
Proof.
  induction s as [|c s IH]; [done|].
  change (String c (s ++ "") = String c s). by rewrite IH.
Qed.

Lemma Forall_drawable (P : string * bool * Node → Prop) ps :
  Forall P ps → Forall P (drawable ps).
Proof.
  induction 1 as [|p ps Hp _ IH]; [done|]. simpl.
  destruct (has_keys p.2); [by constructor | constructor].
Qed.

Lemma place_children_under np cs :
  Forall (λ c, ∀ p l, Forall (λ e, ∃ s, e.1.1 = p ++ s) (placement c p l)) cs →
  Forall (λ e, ∃ s, e.1.1 = np ++ s) (place_children np cs).
Proof.
  induction 1 as [|c cs Hc _ IH]; [constructor|].
  rewrite place_children_cons. apply Forall_app. split; [apply Hc | apply IH].
Qed.

Lemma placement_under t :
  ∀ p l, Forall (λ e, ∃ s, e.1.1 = p ++ s) (placement t p l).
Proof.
  induction t as [fields children IH] using Node_rect_children.
  intros p l. rewrite placement_node. constructor.
  - exists "". by rewrite append_nil_r.
  - eapply Forall_impl; [apply place_children_under, IH|].
    intros e [s Hs]. unfold extend in Hs. rewrite append_assoc in Hs. by eexists.
Qed.

(** X13. Every line printed for a tree starts with the indentation the
    printer was given, and every line after the first, the lines of the
    descendants, starts with that indentation followed by four columns:
    blanks below a last child, a bar and blanks below an earlier one. This
    holds on any tree, also when the printing stops with an exception. *)
Theorem lines_share_the_indentation t prefix is_last :
  Forall (λ line, ∃ rest, line = prefix ++ rest)
         (pretty_print_tree t prefix is_last).1 ∧
  Forall (λ line, ∃ rest, line = extend prefix is_last ++ rest)
         (tail (pretty_print_tree t prefix is_last).1).
Proof.
  rewrite printer_on_any_tree. cbn [fst]. split.
  - apply Forall_fmap. eapply Forall_impl.
    + apply Forall_drawable, placement_under.
    + intros [[q b] n] [s Hs]. simpl in Hs. subst q. simpl.
      exists (s ++ branch b ++ annotation n). by rewrite append_assoc.
  - destruct t as [fields children]. rewrite placement_node.
    cbn [drawable snd]. destruct (has_keys (MkNode fields children)); [|constructor].
    cbn [map tail]. apply Forall_fmap. eapply Forall_impl.
    + apply Forall_drawable, place_children_under.
      apply Forall_forall. intros c _. apply placement_under.
    + intros [[q b] n] [s Hs]. simpl in Hs. subst q. simpl.
      exists (s ++ branch b ++ annotation n). by rewrite append_assoc.
Qed.

End PrinterFacts.

(* ===================================================================== *)
(** ** The command line of stage 3, and stage 3 followed by the harness   *)
(* ===================================================================== *)

Import Stage3Main.

Section Stage3Facts.

Variable create : string → string → string → PyExc + Response.
Variable json_loads : string → PyExc + Json.
Variable dumps_indent : Json → string.

(** X14. Stage 3 with a failing oracle. When the tree file is read and
    parsed and the request for the validator source fails, the script still
    writes the output file, empty, prints the error line between its two
    progress lines, the second of which says the validator was written, and
    ends without an exception. No other file is touched. *)
Theorem stage3_writes_an_empty_file_on_failure files prompt tree_path model out
    text tree e :
  files !! tree_path = Some text →
  json_loads text = inr tree →
  answer_fails create json_loads model "generate_output_checker_code"
    (code_request dumps_indent (read_text files prompt) tree) (λ args, json_subscript args "code") e →
  Stage3Main.main create json_loads dumps_indent files prompt tree_path model out =
    (None, <[out := ""]> files,
     [generating; "[ERROR] GPT code generation failed: " ++ exc_msg e; wrote out]).
Proof.
  intros Hfile Htree Hfail. unfold Stage3Main.main, read_file. rewrite Hfile, Htree.
  unfold generate_checker_code, code_body. unfold code_request in Hfail.
  by rewrite (failed_request_raises create json_loads _ _ _ _ _ Hfail).
Qed.

(** X15. Stage 3 with an answer. When the request goes through and the
    field code holds a text, the output file holds exactly this text and
    every other file is as before; when the field holds anything else, the
    output file is left empty and [TypeError] leaves the script after the
    first progress line. *)
Theorem stage3_writes_the_code_it_received files prompt tree_path model out
    text tree response answer members code :
  files !! tree_path = Some text →
  json_loads text = inr tree →
  create model "generate_output_checker_code" (code_request dumps_indent (read_text files prompt) tree)
    = inr response →
  first_arguments response = inr answer →
  json_loads answer = inr (JObj members) →
  members !! "code" = Some code →
  match code with
  | JAtom (SStr source) =>
      Stage3Main.main create json_loads dumps_indent files prompt tree_path model out =
        (None, <[out := source]> files, [generating; wrote out])
  | _ =>
      Stage3Main.main create json_loads dumps_indent files prompt tree_path model out =
        (Some (Exc "TypeError"
                 ("write() argument must be str, not " ++ argument_name code)),
         <[out := ""]> files, [generating])
  end.
Proof.
  intros Hfile Htree Hc Hf Hl Hm. unfold Stage3Main.main, read_file. rewrite Hfile, Htree.
  unfold generate_checker_code, code_body, bind_result.
  fold (code_request dumps_indent (read_text files prompt) tree). rewrite Hc, Hf, Hl. simpl. rewrite Hm.
  by destruct code as [[]| |].
Qed.

(** X16. Stage 3 followed by the harness. The file that stage 3 writes
    when its request fails is empty; loading the empty source binds no
    entry point, so the command line of the harness, run on that file,
    prints the error line of the missing entry point and FAIL: a validator
    that could not be generated never passes an output. *)
Theorem failed_generation_never_passes (python : string → Source)
    files prompt tree_path model out text tree e input_text output_text w w' printed :
  files !! tree_path = Some text →
  json_loads text = inr tree →
  answer_fails create json_loads model "generate_output_checker_code"
    (code_request dumps_indent (read_text files prompt) tree)
    (λ args, json_subscript args "code") e →
  loads_without_entry (python "") w w' printed →
  Cli.main python
    (Stage3Main.main create json_loads dumps_indent files prompt tree_path model out).1.2
    out input_text output_text w =
    (Normal tt, w',
     (banner :: printed ++
      [error_line missing_entry_point; final_line (VBool false)])%list).
Proof.
  intros Hfile Htree Hfail (ns & Hload & Hentry).
  unfold Stage3Main.main, read_file. rewrite Hfile, Htree.
  unfold generate_checker_code, code_body. unfold code_request in Hfail.
  rewrite (failed_request_raises create json_loads _ _ _ _ _ Hfail). simpl.
  rewrite (main_after_run python _ out "" input_text output_text w (VBool false) w'
             (printed ++ [error_line missing_entry_point])%list).
  - by rewrite <- app_assoc.
  - apply lookup_insert_eq.
  - apply run_of_raise. unfold checker_body, exec_bind. rewrite Hload, Hentry.
    unfold raise. by rewrite app_nil_r.
Qed.

End Stage3Facts.

(** The tree file of the examples, and [exec] on the empty source, which
    leaves the namespace as it found it but for [__builtins__]. *)
Lemma stage3_writes_an_empty_file_on_failure_witness :
  sample_files !! "tree.json" = Some "{}" ∧
  Stage3Main.main times_out loads_sample (λ _, "{}") sample_files "p" "tree.json"
    "gpt-4o" "checker.py" =
    (None, <["checker.py" := ""]> sample_files,
     [generating; "[ERROR] GPT code generation failed: Request timed out.";
      wrote "checker.py"]).
Proof.
  assert (sample_files !! "tree.json" = Some "{}") as Hfile by reflexivity.
  split; [exact Hfile|].
  refine (stage3_writes_an_empty_file_on_failure times_out loads_sample (λ _, "{}")
            sample_files "p" "tree.json" "gpt-4o" "checker.py" "{}" (JObj ∅)
            (Exc "APITimeoutError" "Request timed out.") Hfile eq_refl _).
  apply call_fails. reflexivity.
Defined.

Lemma stage3_writes_the_code_it_received_witness :
  sample_files !! "tree.json" = Some "{}" ∧
  Stage3Main.main (answers_with "code") loads_code (λ _, "{}") sample_files "p"
    "tree.json" "gpt-4o" "checker.py" =
    (None, <["checker.py" := "def is_valid_output(o, i): return (True, None, None)"]>
             sample_files,
     [generating; wrote "checker.py"]).
Proof.
  assert (sample_files !! "tree.json" = Some "{}") as Hfile by reflexivity.
  split; [exact Hfile|].
  exact (stage3_writes_the_code_it_received (answers_with "code") loads_code (λ _, "{}")
           sample_files "p" "tree.json" "gpt-4o" "checker.py" "{}" (JObj ∅) _ "code" _
           (JAtom (SStr "def is_valid_output(o, i): return (True, None, None)"))
           Hfile eq_refl eq_refl eq_refl eq_refl eq_refl).
Defined.

Lemma failed_generation_never_passes_witness :
  loads_without_entry (python_sample "") ∅ ∅ [] ∧
  Cli.main python_sample
    (Stage3Main.main times_out loads_sample (λ _, "{}") sample_files "p" "tree.json"
       "gpt-4o" "checker.py").1.2
    "checker.py" "in" "out" ∅ =
    (Normal tt, ∅,
     [banner; error_line missing_entry_point; final_line (VBool false)]).
Proof.
  assert (loads_without_entry (python_sample "") ∅ ∅ []) as Hload.
  { eexists. split; reflexivity. }
  split; [exact Hload|].
  refine (failed_generation_never_passes times_out loads_sample (λ _, "{}")
            python_sample sample_files "p" "tree.json" "gpt-4o" "checker.py" "{}"
            (JObj ∅) (Exc "APITimeoutError" "Request timed out.") "in" "out" ∅ ∅ []
            eq_refl eq_refl _ Hload).
  apply call_fails. reflexivity.
Defined.

(* ===================================================================== *)
(** ** The command line of stage 2                                        *)
(* ===================================================================== *)

Import Stage2Main.

Section Stage2MainFacts.

Variable create : string → string → string → PyExc + Response.
Variable json_loads : string → PyExc + Json.
Variable dumps_indent : Json → string.
Variable dumps_pretty : Json → string.

(** X17. Stage 2 with a failing oracle. When the constraints file is read
    and parsed and the request for the tree fails, the script writes the
    empty dict to the output file, prints the error line between its two
    progress lines and ends without an exception and without a preview: the
    test of line 152 keeps the empty dict away from the printer, which
    would stop on it with KeyError('conditional'). *)
Theorem stage2_skips_the_preview_on_failure files prompt constraints_path model out
    text constraints e :
  files !! constraints_path = Some text →
  json_loads text = inr constraints →
  answer_fails create json_loads model "generate_constraint_check_tree"
    (tree_request dumps_indent (read_text files prompt) constraints)
    (λ args, json_subscript args "tree") e →
  Stage2Main.main create json_loads dumps_indent dumps_pretty
    files prompt constraints_path model out =
    Some (None, <[out := dumps_pretty (JObj ∅)]> files,
          [generating_tree;
           "[ERROR] Evaluation tree generation failed: " ++ exc_msg e;
           wrote_tree out]) ∧
  as_node (JObj ∅) = Some (MkNode ∅ []) ∧
  pretty_print_tree (MkNode ∅ []) "" true = ([], Some (Exc "KeyError" "'conditional'")).
Proof.
  intros Hfile Hcons Hfail. split; [|split; reflexivity].
  unfold Stage2Main.main, read_file. rewrite Hfile, Hcons.
  unfold generate_evaluation_tree, tree_body. unfold tree_request in Hfail.
  by rewrite (failed_request_raises create json_loads _ _ _ _ _ Hfail).
Qed.

(** X18. Stage 2 with an answer. The tree received is written to the output
    file before the preview is printed: when the tree is a non-empty dict
    the printer is modelled on, the output file holds the tree whatever the
    preview does, the preview follows the two progress lines and its header,
    and the script ends with an exception exactly when some node of the
    tree lacks one of the six keys of a line. *)
Theorem stage2_writes_the_tree_before_the_preview files prompt constraints_path
    model out text constraints response answer members tree n :
  files !! constraints_path = Some text →
  json_loads text = inr constraints →
  create model "generate_constraint_check_tree"
    (tree_request dumps_indent (read_text files prompt) constraints) = inr response →
  first_arguments response = inr answer →
  json_loads answer = inr (JObj members) →
  members !! "tree" = Some tree →
  json_truthy tree = true →
  as_node tree = Some n →
  Stage2Main.main create json_loads dumps_indent dumps_pretty
    files prompt constraints_path model out =
    Some ((pretty_print_tree n "" true).2,
          <[out := dumps_pretty tree]> files,
          ([generating_tree; wrote_tree out; preview_header] ++
           (pretty_print_tree n "" true).1)%list) ∧
  ((pretty_print_tree n "" true).2 = None ↔ complete n).
Proof.
  intros Hfile Hcons Hc Hf Hl Hm Ht Hn.
  split; [|apply printer_ends_normally_iff_complete].
  unfold Stage2Main.main, read_file. rewrite Hfile, Hcons.
  unfold generate_evaluation_tree, tree_body, bind_result.
  unfold tree_request in Hc. rewrite Hc, Hf, Hl. simpl. rewrite Hm, Ht, Hn.
  by destruct (pretty_print_tree n "" true).
Qed.

End Stage2MainFacts.

Lemma stage2_skips_the_preview_on_failure_witness :
  constraints_files !! "constraints.json" = Some "[]" ∧
  Stage2Main.main times_out loads_tree (λ _, "[]") (λ _, "{}") constraints_files
    "p" "constraints.json" "gpt-4o" "tree.json" =
    Some (None, <["tree.json" := "{}"]> constraints_files,
          [generating_tree;
           "[ERROR] Evaluation tree generation failed: Request timed out.";
           wrote_tree "tree.json"]).
Proof.
  assert (constraints_files !! "constraints.json" = Some "[]") as Hfile by reflexivity.
  split; [exact Hfile|].
  refine (proj1 (stage2_skips_the_preview_on_failure times_out loads_tree
                   (λ _, "[]") (λ _, "{}") constraints_files "p" "constraints.json"
                   "gpt-4o" "tree.json" "[]" (JArr [])
                   (Exc "APITimeoutError" "Request timed out.") Hfile eq_refl _)).
  apply call_fails. reflexivity.
Defined.

Lemma stage2_writes_the_tree_before_the_preview_witness :
  as_node (json_of_node bare_tree) = Some bare_tree ∧
  Stage2Main.main (answers_with "tree") loads_tree (λ _, "[]") (λ _, "<tree>")
    constraints_files "p" "constraints.json" "gpt-4o" "tree.json" =
    Some (Some (Exc "KeyError" "'scope'"),
          <["tree.json" := "<tree>"]> constraints_files,
          [generating_tree; wrote_tree "tree.json"; preview_header;
           draw ("", true, bare_tree)]).
Proof.
  assert (as_node (json_of_node bare_tree) = Some bare_tree) as Hn
    by (vm_compute; reflexivity).
  split; [exact Hn|].
  exact (proj1 (stage2_writes_the_tree_before_the_preview (answers_with "tree")
                  loads_tree (λ _, "[]") (λ _, "<tree>") constraints_files "p"
                  "constraints.json" "gpt-4o" "tree.json" "[]" (JArr []) _ "tree" _
                  (json_of_node bare_tree) bare_tree
                  eq_refl eq_refl eq_refl eq_refl eq_refl eq_refl eq_refl Hn)).
Defined.

(* ===================================================================== *)
(** ** The command line of stage 1                                        *)
(* ===================================================================== *)

Import Stage1Main.

Section Stage1MainFacts.

Variable create : string → string → string → PyExc + Response.
Variable json_loads : string → PyExc + Json.
Variable dumps_pretty : Json → string.

(** X19. Stage 1 with a failing oracle. When the extraction request fails,
    the script writes the empty list to the output file, and to the raw
    file when one is asked for, makes no assessment request, prints the
    error line of the extraction after its first progress line and ends
    without an exception. *)
Theorem stage1_writes_the_empty_list_on_failure files prompt model out save_raw e :
  answer_fails create json_loads model "classify_constraints_from_prompt"
    ("Prompt template:" ++ nl ++ read_text files prompt)
    (λ args, json_get args "constraints" (JArr [])) e →
  Stage1Main.main create json_loads dumps_pretty files prompt model out save_raw =
    match wants_raw save_raw with
    | Some path =>
        Some (None,
              <[out := dumps_pretty (JArr [])]> (<[path := dumps_pretty (JArr [])]> files),
              [extracting; "[ERROR] Extraction failed: " ++ exc_msg e;
               saved_raw path; wrote_constraints out])
    | None =>
        Some (None, <[out := dumps_pretty (JArr [])]> files,
              [extracting; "[ERROR] Extraction failed: " ++ exc_msg e;
               wrote_constraints out])
    end.
Proof.
  intros Hfail. unfold Stage1Main.main, classify_prompt_constraints, classify_body.
  rewrite (failed_request_raises create json_loads _ _ _ _ _ Hfail).
  by destruct (wants_raw save_raw).
Qed.

End Stage1MainFacts.

Lemma stage1_writes_the_empty_list_on_failure_witness :
  answer_fails times_out loads_sample "gpt-4o" "classify_constraints_from_prompt"
    ("Prompt template:" ++ nl ++ read_text ∅ "p")
    (λ args, json_get args "constraints" (JArr []))
    (Exc "APITimeoutError" "Request timed out.") ∧
  Stage1Main.main times_out loads_sample (λ _, "[]") ∅ "p" "gpt-4o" "out.json"
    (Some "raw.json") =
    Some (None, <["out.json" := "[]"]> (<["raw.json" := "[]"]> ∅),
          [extracting; "[ERROR] Extraction failed: Request timed out.";
           saved_raw "raw.json"; wrote_constraints "out.json"]).
Proof.
  assert (answer_fails times_out loads_sample "gpt-4o" "classify_constraints_from_prompt"
            ("Prompt template:" ++ nl ++ read_text ∅ "p")
            (λ args, json_get args "constraints" (JArr []))
            (Exc "APITimeoutError" "Request timed out.")) as H.
  { apply call_fails. reflexivity. }
  split; [exact H|].
  exact (stage1_writes_the_empty_list_on_failure times_out loads_sample (λ _, "[]")
           ∅ "p" "gpt-4o" "out.json" (Some "raw.json") _ H).
Defined.

(* ===================================================================== *)
(** ** The text helpers and the metric of calculate_bleu.py               *)
(* ===================================================================== *)

Import Bleu.

Section BleuFacts.

Variable isspace : N → bool.
Variable lower : list N → list N.
Variable F : Type.
Variables (one zero : F).
Variable true_div : nat → nat → F.
Variable sentence_bleu : list (list (list N)) → list (list N) → F.

Lemma collapse_from_head in_run s d :
  in_run = true → head (collapse_from isspace in_run s) = Some d → isspace d = false.
Proof.
  intros ->. induction s as [|c r IH]; simpl; [done|].
  destruct (isspace c) eqn:Hc; [apply IH|]. by intros [= <-].
Qed.

Lemma collapse_from_tidy in_run s : tidy isspace (collapse_from isspace in_run s).
Proof.
  revert in_run. induction s as [|c r IH]; intros in_run; simpl; [done|].
  destruct (isspace c) eqn:Hc.
  - destruct in_run; [apply IH|]. simpl. split; [|apply IH].
    intros _. split; [done|]. intros d. by apply collapse_from_head.
  - simpl. split; [|apply IH]. congruence.
Qed.

Lemma tidy_drop n l : tidy isspace l → tidy isspace (drop n l).
Proof.
  revert l. induction n as [|n IH]; intros l; [done|].
  destruct l as [|c r]; simpl; [done|]. intros [_ Hr]. by apply IH.
Qed.

Lemma tidy_take n l : tidy isspace l → tidy isspace (take n l).
Proof.
  revert l. induction n as [|n IH]; intros l; [done|].
  destruct l as [|c r]; simpl; [done|]. intros [Hc Hr]. split; [|by apply IH].
  intros Hs. destruct (Hc Hs) as [-> Hd]. split; [done|].
  intros d Hh. apply Hd. destruct n, r; simpl in *; try done.
Qed.

Lemma unquote_tidy l : tidy isspace l → tidy isspace (unquote l).
Proof.
  intros H. unfold unquote. destruct l as [|c r]; [done|].
  destruct (last (c :: r)); [|done].
  destruct (_ && _); [|done]. by apply tidy_take, tidy_drop.
Qed.

Lemma tidy_lookup l i a b :
  tidy isspace l → l !! i = Some a → l !! S i = Some b →
  isspace a = true → a = 32%N ∧ isspace b = false.
Proof.
  revert l. induction i as [|i IH]; intros [|c r] Ht Ha Hb Hs; try done.
  - simpl in *. injection Ha as ->. destruct Ht as [Hc _].
    destruct (Hc Hs) as [-> Hd]. split; [done|]. apply Hd.
    by destruct r; simplify_eq/=.
  - simpl in *. destruct Ht as [_ Hr]. by eapply IH.
Qed.

(** X20. In the text [_normalize] returns, whatever the input, every
    whitespace character is a single space: no tab, no line break, and no
    two whitespace characters side by side. *)
Theorem normalized_text_has_single_spaces (s : option (list N)) i a :
  _normalize isspace lower s !! i = Some a →
  isspace a = true →
  a = 32%N ∧ ∀ b, _normalize isspace lower s !! S i = Some b → isspace b = false.
Proof.
  intros Ha Hs.
  assert (tidy isspace (_normalize isspace lower s)) as Ht.
  { destruct s as [text|]; [|done]. apply unquote_tidy, collapse_from_tidy. }
  split.
  - revert Ht Ha. generalize (_normalize isspace lower s). intros l. revert l.
    induction i as [|i IH]; intros [|c r] Ht Ha; try done; simpl in *.
    + injection Ha as ->. by destruct (proj1 Ht Hs).
    + by apply (IH r (proj2 Ht)).
  - intros b Hb. by destruct (tidy_lookup _ _ _ _ Ht Ha Hb Hs).
Qed.

(** X21. The guards of [_bleu], with or without nltk: two texts that both
    normalise to the empty text score 1.0; when exactly one does, the score
    is 0.0; and when neither does but one of them has no token, being made
    of blanks only as a quoted space is, the score is 0.0, also for a text
    against itself. *)
Theorem bleu_guards has_nltk ref hyp :
  let ref_norm := _normalize isspace lower ref in
  let hyp_norm := _normalize isspace lower hyp in
  (ref_norm = [] → hyp_norm = [] →
   _bleu isspace lower F one zero true_div has_nltk sentence_bleu ref hyp = one) ∧
  (ref_norm = [] → hyp_norm ≠ [] →
   _bleu isspace lower F one zero true_div has_nltk sentence_bleu ref hyp = zero) ∧
  (ref_norm ≠ [] → hyp_norm = [] →
   _bleu isspace lower F one zero true_div has_nltk sentence_bleu ref hyp = zero) ∧
  (ref_norm ≠ [] → hyp_norm ≠ [] →
   split isspace ref_norm = [] ∨ split isspace hyp_norm = [] →
   _bleu isspace lower F one zero true_div has_nltk sentence_bleu ref hyp = zero).
Proof.
  simpl. unfold _bleu. repeat split.
  - intros -> ->. by rewrite !bool_decide_eq_true_2.
  - intros -> Hh. rewrite bool_decide_eq_true_2, bool_decide_eq_false_2; done.
  - intros Hr ->. rewrite bool_decide_eq_false_2, bool_decide_eq_true_2; done.
  - intros Hr Hh Ht.
    rewrite (bool_decide_eq_false_2 _ Hr), (bool_decide_eq_false_2 _ Hh). simpl.
    destruct Ht as [Ht | Ht]; rewrite Ht.
    + done.
    + by destruct (bool_decide (split isspace (_normalize isspace lower ref) = [])).
Qed.

Lemma indicator_sum (t : list N) (l : list (list N)) :
  NoDup l →
  list_sum (map (λ u, if decide (t = u) then 1 else 0) l) = if decide (t ∈ l) then 1 else 0.
Proof.
  induction 1 as [|x l Hx Hl IH]; [done|]. simpl. rewrite IH.
  destruct (decide (t = x)) as [->|Hne].
  - rewrite decide_False by done. rewrite decide_True; [done | by left].
  - destruct (decide (t ∈ l)) as [Hin|Hnin].
    + rewrite decide_True; [done | by right].
    + rewrite decide_False; [done|]. by intros [?|?]%elem_of_cons.
Qed.

Lemma count_cons (t x : list N) l :
  count t (x :: l) = (if decide (x = t) then 1 else 0) + count t l.
Proof. unfold count. rewrite filter_cons. by destruct (decide (x = t)). Qed.

Lemma count_not_in (t : list N) l : t ∉ l → count t l = 0.
Proof.
  induction l as [|x l IH]; [done|]. intros Hn. rewrite count_cons.
  rewrite decide_False by (intros ->; apply Hn; by left).
  apply IH. intros ?. apply Hn. by right.
Qed.

(** The counts of the distinct tokens add up to the number of tokens. *)
Lemma counts_add_up (l : list (list N)) :
  list_sum (map (λ t, count t l) (remove_dups l)) = length l.
Proof.
  induction l as [|x l IH]; [done|].
  assert (Hsplit : ∀ ts : list (list N),
            list_sum (map (λ t, count t (x :: l)) ts) =
            list_sum (map (λ u, if decide (x = u) then 1 else 0) ts) +
            list_sum (map (λ t, count t l) ts)).
  { induction ts as [|t ts IHts]; [done|]. simpl. rewrite IHts, count_cons. lia. }
  simpl. destruct (decide_rel elem_of x l) as [Hin|Hnin].
  - rewrite Hsplit, IH, indicator_sum by apply NoDup_remove_dups.
    rewrite decide_True; [done | by apply elem_of_remove_dups].
  - simpl. rewrite Hsplit, IH, indicator_sum by apply NoDup_remove_dups.
    rewrite count_cons, decide_True by done. rewrite (count_not_in x l Hnin).
    rewrite decide_False; [lia | by rewrite elem_of_remove_dups].
Qed.

Lemma common_le ref_tokens hyp_tokens :
  (common ref_tokens hyp_tokens ≤ length hyp_tokens)%nat.
Proof.
  unfold common. rewrite <- (counts_add_up hyp_tokens).
  generalize (remove_dups hyp_tokens). intros ts.
  induction ts as [|t ts IH]; simpl; lia.
Qed.

(** X22. Without nltk the score is 1.0, 0.0, or the quotient of two counts
    of tokens: the tokens of the hypothesis that the reference has too,
    each counted as often as the rarer side has it, over the number of
    tokens of the hypothesis, which is not zero. The first count never
    exceeds the second, so the quotient lies between 0 and 1. *)
Theorem fallback_score_is_a_proportion ref hyp :
  let score := _bleu isspace lower F one zero true_div false sentence_bleu ref hyp in
  score = one ∨ score = zero ∨
  ∃ shared total,
    score = true_div shared total ∧ (shared ≤ total)%nat ∧ (0 < total)%nat ∧
    total = length (split isspace (_normalize isspace lower hyp)) ∧
    shared = common (split isspace (_normalize isspace lower ref))
                    (split isspace (_normalize isspace lower hyp)).
Proof.
  simpl. unfold _bleu.
  destruct (bool_decide (_normalize isspace lower ref = []) &&
            bool_decide (_normalize isspace lower hyp = [])); [by left|].
  destruct (negb _); [by right; left|].
  destruct (bool_decide (split isspace (_normalize isspace lower ref) = [])); simpl;
    [by right; left|].
  destruct (bool_decide (split isspace (_normalize isspace lower hyp) = [])) eqn:Hh;
    [by right; left|].
  destruct (bool_decide (_normalize isspace lower ref = _normalize isspace lower hyp));
    [by left|].
  right; right. apply bool_decide_eq_false in Hh.
  assert (0 < length (split isspace (_normalize isspace lower hyp)))%nat as Hpos.
  { destruct (split isspace (_normalize isspace lower hyp)); [done | simpl; lia]. }
  eexists _, _. split; [|split; [|split; [|split]]]; [| | | reflexivity | reflexivity].
  - f_equal. lia.
  - apply common_le.
  - done.
Qed.

(** X23. Without nltk a text scores 1.0 against itself, except a text that
    normalises to blanks only, which scores 0.0. *)
Theorem fallback_score_of_a_text_against_itself s :
  _bleu isspace lower F one zero true_div false sentence_bleu s s =
    if bool_decide (_normalize isspace lower s = []) ||
       negb (bool_decide (split isspace (_normalize isspace lower s) = []))
    then one else zero.
Proof.
  unfold _bleu.
  destruct (bool_decide (_normalize isspace lower s = [])); [done|]. simpl.
  destruct (bool_decide (split isspace (_normalize isspace lower s) = [])); [done|].
  simpl. by rewrite bool_decide_eq_true_2.
Qed.

End BleuFacts.

Lemma normalized_text_has_single_spaces_witness :
  _normalize ascii_space ascii_lower (Some [65; 9; 10; 66]%N) !! 1%nat = Some 32%N ∧
  ascii_space 32 = true ∧
  ∀ b, _normalize ascii_space ascii_lower (Some [65; 9; 10; 66]%N) !! 2%nat = Some b →
       ascii_space b = false.
Proof.
  assert (_normalize ascii_space ascii_lower (Some [65; 9; 10; 66]%N) !! 1%nat
          = Some 32%N) as Ha by reflexivity.
  assert (ascii_space 32 = true) as Hs by reflexivity.
  split; [exact Ha|]. split; [exact Hs|].
  exact (proj2 (normalized_text_has_single_spaces ascii_space ascii_lower
                  (Some [65; 9; 10; 66]%N) 1 32%N Ha Hs)).
Defined.

Lemma bleu_guards_witness :
  _normalize ascii_space ascii_lower (Some [34; 32; 34]%N) ≠ [] ∧
  split ascii_space (_normalize ascii_space ascii_lower (Some [34; 32; 34]%N)) = [] ∧
  _bleu ascii_space ascii_lower nat 1 0 (λ a _, a) true (λ _ _, 1)
    (Some [34; 32; 34]%N) (Some [34; 32; 34]%N) = 0.
Proof.
  assert (_normalize ascii_space ascii_lower (Some [34; 32; 34]%N) ≠ []) as Hn
    by discriminate.
  assert (split ascii_space (_normalize ascii_space ascii_lower (Some [34; 32; 34]%N))
          = []) as Ht by reflexivity.
  split; [exact Hn|]. split; [exact Ht|].
  exact (proj2 (proj2 (proj2 (bleu_guards ascii_space ascii_lower nat 1 0 (λ a _, a)
                                (λ _ _, 1) true (Some [34; 32; 34]%N)
                                (Some [34; 32; 34]%N))))
               Hn Hn (or_introl Ht)).
Defined.
